(** * verifyHash: on-chain signature verification with ERC-6492 wrapping
      and a local ECDSA-recovery fallback.

    Shallow embedding of [verifyHash] (actions/public/verifyHash.ts) and of
    the [zksync] chain definition (chains/definitions/zksync.ts).

    JavaScript exceptions are modelled by a sum type ([Error + A]); the
    invocations of the collaborators whose use the specification talks
    about (the call executor, ECDSA recovery, the ERC-6492 wrapper) are
    recorded in a trace, so that "is not called" is a statement about the
    trace. *)

From Stdlib Require Import String Ascii List Bool ZArith NArith Lia.
Import ListNotations.
Open Scope string_scope.
Open Scope list_scope.

(** ** Data model *)

(** The TypeScript type [Hex] is the template type [`0x${string}`]: a value
    [Hex0x b] stands for the JavaScript string ["0x" ++ b].  Such a string is
    never empty, hence always truthy. *)
Record Hex : Type := Hex0x { hexBody : string }.

Definition Address : Type := Hex.

Definition Hex_eqb (a b : Hex) : bool := String.eqb (hexBody a) (hexBody b).

(** [ByteArray] is a [Uint8Array]. *)
Definition ByteArray : Type := list Byte.byte.

(** The structured signature: two integers as hex and a recovery id. *)
Record Signature : Type := {
  r : Hex;
  s : Hex;
  yParity : Z
}.

(** [signature: Hex | ByteArray | Signature] as a tagged union. *)
Inductive SignatureInput : Type :=
| SigHex (h : Hex)
| SigBytes (b : ByteArray)
| SigObject (sg : Signature).

(** Errors that can be thrown.  [CallExecutionError] is the class tested by
    [instanceof] in [verifyHash]; the others are named after the error
    classes of the code base and of the specification's taxonomy. *)
Inductive Error : Type :=
| CallExecutionError (shortMessage : string)
| TransportError (shortMessage : string)
| InvalidHexBooleanError (hex : Hex)
| EncodingError (shortMessage : string)
| InvalidAddressError (address : Hex)
| RecoveryError (shortMessage : string)
| OtherError (name shortMessage : string).

(** [error instanceof CallExecutionError] *)
Definition instanceofCallExecutionError (e : Error) : bool :=
  match e with
  | CallExecutionError _ => true
  | _ => false
  end.

(** The specification's [EncodingError] class: malformed input or malformed
    returned bytes. *)
Definition isEncodingError (e : Error) : bool :=
  match e with
  | InvalidHexBooleanError _ | EncodingError _ => true
  | _ => false
  end.

Definition Result (A : Type) : Type := (Error + A)%type.

(** [Pick<CallParameters, 'blockNumber' | 'blockTag'>], the [...rest] of the
    destructured parameters. *)
Record BlockSelector : Type := {
  blockNumber : option Z;
  blockTag : option string
}.

Record VerifyHashParameters : Type := {
  address : Address;
  hash : Hex;
  signature : SignatureInput;
  (** [OneOf<{ factory: Address; factoryData: Hex } | {}>]: both or neither. *)
  deployment : option (Address * Hex);
  rest : BlockSelector
}.

Definition factory (p : VerifyHashParameters) : option Address :=
  option_map fst (deployment p).

Definition factoryData (p : VerifyHashParameters) : option Hex :=
  option_map snd (deployment p).

(** JavaScript truthiness of a value of type [Hex | undefined]. *)
Definition truthy (h : option Hex) : bool :=
  match h with
  | Some _ => true
  | None => false
  end.

(** The payload handed to the call executor. *)
Record CallParameters : Type := {
  to : option Address;
  data : Hex;
  callRest : BlockSelector
}.

(** What the call executor returns: [{ data }], possibly undefined. *)
Record CallReturnType : Type := { returnData : option Hex }.

Record ChainContract : Type := {
  contractAddress : Address;
  blockCreated : option Z
}.

Record ChainContracts : Type := {
  multicall3 : option ChainContract;
  universalSignatureVerifier : option ChainContract
}.

Record Chain : Type := {
  id : Z;
  name : string;
  network : string;
  contracts : option ChainContracts
}.

(** A client: its chain (possibly undefined) and the [call] action that
    [getAction(client, call, 'call')] resolves to. *)
Record Client : Type := {
  chain : option Chain;
  call : CallParameters -> Result CallReturnType
}.

(** [chains/definitions/zksync.ts] (the fields that matter to verification). *)
Definition zksync : Chain := {|
  id := 324;
  name := "ZKsync Era";
  network := "zksync-era";
  contracts := Some {|
    multicall3 := Some {|
      contractAddress := Hex0x "F9cda624FBC7e059355ce98a31693d299FACd963";
      blockCreated := None |};
    universalSignatureVerifier := Some {|
      contractAddress := Hex0x "872146211f996755C8729042093ffb8660F8b129";
      blockCreated := Some 45659388%Z |}
  |}
|}.

(** [client.chain?.contracts?.universalSignatureVerifier] *)
Definition chainVerifier (client : Client) : option ChainContract :=
  match chain client with
  | Some ch =>
      match contracts ch with
      | Some cs => universalSignatureVerifier cs
      | None => None
      end
  | None => None
  end.

(** ** Effects: a trace of collaborator invocations and exceptions *)

Inductive Event : Type :=
| EvCall (p : CallParameters)
| EvRecover (hash : Hex) (signature : SignatureInput)
| EvWrap (address data signature : Hex).

Definition M (A : Type) : Type := (list Event * Result A)%type.

Definition ret {A} (a : A) : M A := ([], inr a).
Definition throw {A} (e : Error) : M A := ([], inl e).
Definition lift {A} (x : Result A) : M A := ([], x).
Definition emit (ev : Event) : M unit := ([ev], inr tt).

Definition bind {A B} (m : M A) (k : A -> M B) : M B :=
  match m with
  | (t, inl e) => (t, inl e)
  | (t, inr a) => let (t', x) := k a in (t ++ t', x)
  end.

(** [try { m } catch (error) { h error }] *)
Definition tryCatch {A} (m : M A) (h : Error -> M A) : M A :=
  match m with
  | (t, inl e) => let (t', x) := h e in (t ++ t', x)
  | (t, inr a) => (t, inr a)
  end.

Declare Scope verify_scope.
Delimit Scope verify_scope with verify.
Notation "x <- m ;; k" := (bind m (fun x => k))
  (at level 100, m at next level, right associativity) : verify_scope.
Notation "m ;;; k" := (bind m (fun _ => k))
  (at level 100, right associativity) : verify_scope.
Open Scope verify_scope.

Definition trace {A} (m : M A) : list Event := fst m.
Definition outcome {A} (m : M A) : Result A := snd m.

Definition isCall (ev : Event) : bool :=
  match ev with EvCall _ => true | _ => false end.
Definition isRecover (ev : Event) : bool :=
  match ev with EvRecover _ _ => true | _ => false end.
Definition isWrap (ev : Event) : bool :=
  match ev with EvWrap _ _ _ => true | _ => false end.

(** ** Collaborators

    The utilities [verifyHash] imports live in other modules of the
    library; they are parameters of the development. *)

Inductive AbiItem : Type :=
| AbiConstructor (inputs : list string)
| AbiFunction (fname : string) (inputs outputs : list string).

Definition Abi : Type := list AbiItem.

Class Utils : Type := {
  (** [isHex(value)], a type guard on strings. *)
  isHex : Hex -> bool;
  serializeSignature : Signature -> Result Hex;
  (** [bytesToHex(value)]: reached with whatever value is neither a hex
      string accepted by [isHex] nor a structured signature. *)
  bytesToHex : SignatureInput -> Result Hex;
  isErc6492Signature : Hex -> bool;
  (** [serializeErc6492Signature({ address, data, signature })] *)
  serializeErc6492Signature : Address -> Hex -> Hex -> Result Hex;
  (** [encodeFunctionData({ abi, functionName, args })] *)
  encodeFunctionData : Abi -> string -> list Hex -> Result Hex;
  (** ABI encoding of the constructor arguments of [abi]. *)
  encodeConstructorArgs : Abi -> list Hex -> Result Hex;
  hexToBool : Hex -> Result bool;
  getAddress : Address -> Result Address;
  isAddressEqual : Address -> Address -> Result bool;
  (** [recoverAddress({ hash, signature })] *)
  recoverAddress : Hex -> SignatureInput -> Result Address;
  universalSignatureValidatorAbi : Abi;
  universalSignatureValidatorByteCode : Hex
}.

(** [concatHex([a, b])] *)
Definition concatHex (a b : Hex) : Hex := Hex0x (hexBody a ++ hexBody b)%string.

(** Modelled from the spec: [encodeDeployData] (utils/abi/encodeDeployData.js)
    is not part of the verified sources.  Section 4.2: the data of the
    creation-style call is "the concatenation of a fixed reference bytecode
    for the validator logic and ABI-encoded constructor arguments". *)
Definition encodeDeployData `{Utils} (abi : Abi) (args : list Hex)
    (bytecode : Hex) : Result Hex :=
  match encodeConstructorArgs abi args with
  | inl e => inl e
  | inr encoded => inr (concatHex bytecode encoded)
  end.

(** ** verifyHash *)

Section VerifyHash.
Context `{U : Utils}.

(** Lines 64-69: the canonical hex of the input signature.  [isHex] is a
    type guard, false on anything that is not a string; a byte array is an
    object without the keys [r] and [s]. *)
Definition signatureHex (signature : SignatureInput) : Result Hex :=
  match signature with
  | SigHex h => if isHex h then inr h else bytesToHex signature
  | SigObject sg => serializeSignature sg
  | SigBytes _ => bytesToHex signature
  end.

(** Lines 71-86: wrap the signature for counterfactual validation. *)
Definition wrappedSignature (p : VerifyHashParameters) (signatureHex : Hex)
    : M Hex :=
  if negb (truthy (factory p)) && negb (truthy (factoryData p))
  then ret signatureHex
  else if isErc6492Signature signatureHex then ret signatureHex
  else
    match deployment p with
    | Some (factory, factoryData) =>
        emit (EvWrap factory factoryData signatureHex) ;;;
        lift (serializeErc6492Signature factory factoryData signatureHex)
    | None => ret signatureHex
    end.

(** Lines 89-107: the payload of the remote call. *)
Definition callParameters (client : Client) (p : VerifyHashParameters)
    (wrappedSignature : Hex) : Result CallParameters :=
  match chainVerifier client with
  | Some verifier =>
      match encodeFunctionData universalSignatureValidatorAbi
              "isValidUniversalSig"
              [address p; hash p; wrappedSignature] with
      | inl e => inl e
      | inr d => inr {| to := Some (contractAddress verifier);
                        data := d;
                        callRest := rest p |}
      end
  | None =>
      match encodeDeployData universalSignatureValidatorAbi
              [address p; hash p; wrappedSignature]
              universalSignatureValidatorByteCode with
      | inl e => inl e
      | inr d => inr {| to := None; data := d; callRest := rest p |}
      end
  end.

(** [data ?? '0x0'] *)
Definition dataOrZero (d : option Hex) : Hex :=
  match d with
  | Some h => h
  | None => Hex0x "0"
  end.

(** Lines 89-111: the body of the outer [try]. *)
Definition remoteAttempt (client : Client) (p : VerifyHashParameters)
    (wrappedSignature : Hex) : M bool :=
  cp <- lift (callParameters client p wrappedSignature) ;;
  emit (EvCall cp) ;;;
  res <- lift (call client cp) ;;
  lift (hexToBool (dataOrZero (returnData res))).

(** Lines 115-118: [getAddress(address)] is evaluated before
    [recoverAddress] is invoked. *)
Definition recoveryCheck (p : VerifyHashParameters) : M bool :=
  claimed <- lift (getAddress (address p)) ;;
  emit (EvRecover (hash p) (signature p)) ;;;
  recovered <- lift (recoverAddress (hash p) (signature p)) ;;
  lift (isAddressEqual claimed recovered).

(** Lines 114-120: the inner [try { ... } catch {}]; the value tells
    whether [return true] was reached. *)
Definition fallback (p : VerifyHashParameters) : M bool :=
  tryCatch (recoveryCheck p) (fun _ => ret false).

(** Lines 112-130: the handler of the outer [try]. *)
Definition onError (p : VerifyHashParameters) (error : Error) : M bool :=
  verified <- fallback p ;;
  if verified then ret true
  else if instanceofCallExecutionError error then ret false
  else throw error.

Definition verifyHash (client : Client) (p : VerifyHashParameters)
    : M bool :=
  signatureHex <- lift (signatureHex (signature p)) ;;
  wrappedSignature <- wrappedSignature p signatureHex ;;
  tryCatch (remoteAttempt client p wrappedSignature) (onError p).

End VerifyHash.

(** Whether the local check of lines 115-118 confirms the claimed address:
    canonicalisation succeeds, recovery succeeds, and the two addresses
    compare equal. *)
Definition recoveredMatch `{Utils} (p : VerifyHashParameters) : bool :=
  match getAddress (address p) with
  | inr claimed =>
      match recoverAddress (hash p) (signature p) with
      | inr recovered =>
          match isAddressEqual claimed recovered with
          | inr true => true
          | _ => false
          end
      | inl _ => false
      end
  | inl _ => false
  end.

(** ** The utilities as the specification describes them *)

Module SpecModel.

(** Value of a hexadecimal digit, [None] for any other character. *)
Definition hexDigitValue (c : ascii) : option N :=
  let n := N_of_ascii c in
  if ((48 <=? n) && (n <=? 57))%N then Some (n - 48)%N
  else if ((97 <=? n) && (n <=? 102))%N then Some (n - 87)%N
  else if ((65 <=? n) && (n <=? 70))%N then Some (n - 55)%N
  else None.

(** The digits of a hex body, most significant first; [None] when some
    character is not a hexadecimal digit. *)
Fixpoint nibbles (b : string) : option (list N) :=
  match b with
  | EmptyString => Some []
  | String c b' =>
      match hexDigitValue c, nibbles b' with
      | Some d, Some ds => Some (d :: ds)
      | _, _ => None
      end
  end.

(** Big-endian value of a digit sequence. *)
Definition valueOf (ds : list N) : N :=
  fold_left (fun acc d => (16 * acc + d)%N) ds 0%N.

(** The last byte of a digit sequence: its last two digits (the last one
    alone when there is only one). *)
Definition trailingByte (ds : list N) : N :=
  match rev ds with
  | [] => 0%N
  | [lo] => lo
  | lo :: hi :: _ => (16 * hi + lo)%N
  end.

Definition wellFormed (h : Hex) : bool :=
  match nibbles (hexBody h) with
  | Some _ => true
  | None => false
  end.

Definition oddLength (h : Hex) : bool := Nat.odd (String.length (hexBody h)).

(** A hex input that normalisation must reject (section 4.1). *)
Definition malformedOrOdd (h : Hex) : bool := negb (wellFormed h) || oddLength h.

(** Modelled from the spec: [isHex] (utils/data/isHex.js) is not part of
    the verified sources.  Section 4.1: [normalize] "fails with
    EncodingError if hex input is malformed or odd-length"; the guard
    therefore accepts exactly the well-formed hex strings holding a whole
    number of bytes. *)
Definition isHex (h : Hex) : bool := wellFormed h && negb (oddLength h).

Definition nibbleChar (n : N) : ascii :=
  if (n <? 10)%N then ascii_of_N (48 + n) else ascii_of_N (87 + n).

Definition byteHex (b : Byte.byte) : string :=
  let n := Byte.to_N b in
  String (nibbleChar (n / 16)) (String (nibbleChar (n mod 16)) EmptyString).

(** Modelled from the spec: [bytesToHex] (utils/encoding/toHex.js) is not
    part of the verified sources.  Section 4.1: raw bytes are converted to
    canonical hex without loss; any value that is not a byte sequence is a
    malformed input and "fails with EncodingError". *)
Definition bytesToHex (v : SignatureInput) : Result Hex :=
  match v with
  | SigBytes b => inr (Hex0x (String.concat "" (map byteHex b)))
  | SigHex _ => inl (EncodingError "malformed hex signature")
  | SigObject _ => inl (EncodingError "not a byte sequence")
  end.

(** Modelled from the spec: the wrapper marker (constants/bytes.js is not
    part of the verified sources), "a fixed trailing byte sequence
    identifying a signature as carrying an embedded deployment recipe": the
    32 bytes of ERC-6492. *)
Definition erc6492MagicBytes : Hex :=
  Hex0x "6492649264926492649264926492649264926492649264926492649264926492".

Definition endsWith (suffix b : string) : bool :=
  let n := String.length b in
  let m := String.length suffix in
  (m <=? n)%nat && String.eqb (substring (n - m) m b) suffix.

(** Modelled from the spec: [isErc6492Signature] is not part of the
    verified sources.  Section 4.1: "true iff the byte sequence ends with
    the fixed magic marker associated with the wrapper format". *)
Definition isErc6492Signature (h : Hex) : bool :=
  endsWith (hexBody erc6492MagicBytes) (hexBody h).

(** Modelled from the spec: [hexToBool] (utils/encoding/fromHex.js) is not
    part of the verified sources.  Section 4.3: empty data decodes to
    [false]; otherwise the canonical bytes-to-boolean rule applies; the
    decoder "fails with EncodingError on non-boolean-shaped return data".
    Boolean-shaped data is data whose value is 0 or 1. *)
Definition hexToBool (h : Hex) : Result bool :=
  match nibbles (hexBody h) with
  | Some ds =>
      match valueOf ds with
      | 0%N => inr false
      | 1%N => inr true
      | _ => inl (InvalidHexBooleanError h)
      end
  | None => inl (InvalidHexBooleanError h)
  end.

(** The last byte of a hex string (0 when it is not well formed). *)
Definition trailingByteOf (h : Hex) : N :=
  match nibbles (hexBody h) with
  | Some ds => trailingByte ds
  | None => 0%N
  end.

End SpecModel.

(** ** A concrete world for examples

    Cryptography, ABI encoding and the network are replaced by small
    stand-ins; the utilities described by the specification are the ones of
    [SpecModel]. *)

Module Scenario.

Definition signer : Address := Hex0x "f39Fd6e51aad88F6F4ce6aB8827279cffFb92266".
Definition stranger : Address := Hex0x "70997970C51812dc3A010C7d01b50e0d17dc79C8".
Definition accountFactory : Address := Hex0x "5FbDB2315678afecb367f032d93F642f64180aa3".
Definition deployData : Hex := Hex0x "5fbfb9cf".

(** The EIP-191 hash of the message "hello world". *)
Definition messageHash : Hex :=
  Hex0x "d9eba16ed0ecae432b71fe008c98cc872bb4cc214d3220a36f365326cf807d68".

(** A 65-byte signature, taken to be the one [signer] produced over
    [messageHash]. *)
Definition plainSignature : Hex :=
  Hex0x ("a461f509887bd19e312c0c58467ce8ff8e300d3c1a90b608a760c5b80318eaf1"
      ++ "5fe57c96f9175d6cd4daad4663763baa7e78836e067d0163e9a2ccf2ff753f5b"
      ++ "1b")%string.

(** Stand-in for ABI encoding: the arguments one after the other. *)
Definition packArgs (args : list Hex) : Hex :=
  Hex0x (String.concat "" (map hexBody args)).

(** Stand-in for the wrapper: the packed triple followed by the marker. *)
Definition wrap (factory : Address) (data signature : Hex) : Result Hex :=
  inr (concatHex (packArgs [factory; data; signature])
                 SpecModel.erc6492MagicBytes).

Definition wrappedSignatureOfSigner : Hex :=
  concatHex (packArgs [accountFactory; deployData; plainSignature])
            SpecModel.erc6492MagicBytes.

Definition validAddress (a : Address) : bool :=
  SpecModel.wellFormed a && (String.length (hexBody a) =? 40)%nat.

(** Stand-in for checksum normalisation: valid addresses are kept. *)
Definition normalizeAddress (a : Address) : Result Address :=
  if validAddress a then inr a else inl (InvalidAddressError a).

Definition addressValue (a : Address) : N :=
  match SpecModel.nibbles (hexBody a) with
  | Some ds => SpecModel.valueOf ds
  | None => 0%N
  end.

Definition sameAddress (a b : Address) : Result bool :=
  if negb (validAddress a) then inl (InvalidAddressError a)
  else if negb (validAddress b) then inl (InvalidAddressError b)
  else inr (addressValue a =? addressValue b)%N.

(** Stand-in for ECDSA recovery: only [plainSignature] over [messageHash]
    recovers, to [signer]. *)
Definition recover (hash : Hex) (signature : SignatureInput) : Result Address :=
  match signature with
  | SigHex h =>
      if Hex_eqb hash messageHash && Hex_eqb h plainSignature
      then inr signer
      else inl (RecoveryError "invalid signature")
  | _ => inl (RecoveryError "invalid signature")
  end.

Definition serialize (sg : Signature) : Result Hex :=
  inr (Hex0x (hexBody (r sg) ++ hexBody (s sg)
              ++ (if (yParity sg =? 0)%Z then "1b" else "1c"))%string).

Definition validatorAbi : Abi :=
  [ AbiConstructor ["address"; "bytes32"; "bytes"];
    AbiFunction "isValidUniversalSig" ["address"; "bytes32"; "bytes"] ["bool"] ].

(** An abbreviated stand-in for the validator byte code. *)
Definition validatorByteCode : Hex := Hex0x "608060405234801561001057600080fd5b50".

Definition utils : Utils := {|
  isHex := SpecModel.isHex;
  serializeSignature := serialize;
  bytesToHex := SpecModel.bytesToHex;
  isErc6492Signature := SpecModel.isErc6492Signature;
  serializeErc6492Signature := wrap;
  encodeFunctionData := fun _ _ args => inr (packArgs args);
  encodeConstructorArgs := fun _ args => inr (packArgs args);
  hexToBool := SpecModel.hexToBool;
  getAddress := normalizeAddress;
  isAddressEqual := sameAddress;
  recoverAddress := recover;
  universalSignatureValidatorAbi := validatorAbi;
  universalSignatureValidatorByteCode := validatorByteCode
|}.

Definition latest : BlockSelector :=
  {| blockNumber := None; blockTag := Some "latest" |}.

Definition parametersFor (a : Address) (sg : SignatureInput)
    (d : option (Address * Hex)) : VerifyHashParameters :=
  {| address := a; hash := messageHash; signature := sg;
     deployment := d; rest := latest |}.

(** The signer's own plain signature, no deployment recipe. *)
Definition plainRequest : VerifyHashParameters :=
  parametersFor signer (SigHex plainSignature) None.

(** Somebody else's address with the signer's signature. *)
Definition strangerRequest : VerifyHashParameters :=
  parametersFor stranger (SigHex plainSignature) None.

(** A counterfactual account: plain signature plus deployment recipe. *)
Definition counterfactualRequest : VerifyHashParameters :=
  parametersFor signer (SigHex plainSignature)
    (Some (accountFactory, deployData)).

(** The caller passes an already wrapped signature. *)
Definition wrappedRequest : VerifyHashParameters :=
  parametersFor signer (SigHex wrappedSignatureOfSigner)
    (Some (accountFactory, deployData)).

(** A hex string with a character that is no hexadecimal digit. *)
Definition malformedRequest : VerifyHashParameters :=
  parametersFor signer (SigHex (Hex0x "12zz")) None.

(** The executor's answers. *)
Definition reverting : CallParameters -> Result CallReturnType :=
  fun _ => inl (CallExecutionError "execution reverted").
Definition unreachable : CallParameters -> Result CallReturnType :=
  fun _ => inl (TransportError "request timed out").
Definition answering (d : option Hex) : CallParameters -> Result CallReturnType :=
  fun _ => inr {| returnData := d |}.

Definition wordTrue : Hex :=
  Hex0x "0000000000000000000000000000000000000000000000000000000000000001".
Definition wordTwo : Hex :=
  Hex0x "0000000000000000000000000000000000000000000000000000000000000002".

Definition onZksync (exec : CallParameters -> Result CallReturnType) : Client :=
  {| chain := Some zksync; call := exec |}.
Definition withoutChain (exec : CallParameters -> Result CallReturnType) : Client :=
  {| chain := None; call := exec |}.

(** The validator known to the ZKsync chain definition. *)
Definition zksyncVerifier : Address :=
  Hex0x "872146211f996755C8729042093ffb8660F8b129".

(** The two payloads, under the stand-in encoders. *)
Definition callToVerifier (p : VerifyHashParameters) (w : Hex) : CallParameters :=
  {| to := Some zksyncVerifier;
     data := packArgs [address p; hash p; w];
     callRest := rest p |}.

Definition deployAndCall (p : VerifyHashParameters) (w : Hex) : CallParameters :=
  {| to := None;
     data := concatHex validatorByteCode (packArgs [address p; hash p; w]);
     callRest := rest p |}.

End Scenario.

(** The same request with the deployment recipe left out. *)
Definition withoutDeployment (p : VerifyHashParameters) : VerifyHashParameters :=
  {| address := address p;
     hash := hash p;
     signature := signature p;
     deployment := None;
     rest := rest p |}.

(** ** A world whose encoders reject invalid addresses *)

Module Faults.

(** Stand-in for an ABI encoder that checks its address argument. *)
Definition checkedPack (args : list Hex) : Result Hex :=
  match args with
  | a :: _ =>
      if Scenario.validAddress a then inr (Scenario.packArgs args)
      else inl (InvalidAddressError a)
  | [] => inr (Scenario.packArgs args)
  end.

Definition checkedWrap (factory : Address) (data signature : Hex)
    : Result Hex :=
  if Scenario.validAddress factory then Scenario.wrap factory data signature
  else inl (InvalidAddressError factory).

Definition utils : Utils := {|
  isHex := SpecModel.isHex;
  serializeSignature := Scenario.serialize;
  bytesToHex := SpecModel.bytesToHex;
  isErc6492Signature := SpecModel.isErc6492Signature;
  serializeErc6492Signature := checkedWrap;
  encodeFunctionData := fun _ _ args => checkedPack args;
  encodeConstructorArgs := fun _ args => checkedPack args;
  hexToBool := SpecModel.hexToBool;
  getAddress := Scenario.normalizeAddress;
  isAddressEqual := Scenario.sameAddress;
  recoverAddress := Scenario.recover;
  universalSignatureValidatorAbi := Scenario.validatorAbi;
  universalSignatureValidatorByteCode := Scenario.validatorByteCode
|}.

(** Too short to be an address. *)
Definition badAddress : Address := Hex0x "1234".

Definition badAddressRequest : VerifyHashParameters :=
  Scenario.parametersFor badAddress (SigHex Scenario.plainSignature) None.

Definition badFactoryRequest : VerifyHashParameters :=
  Scenario.parametersFor Scenario.signer (SigHex Scenario.plainSignature)
    (Some (badAddress, Scenario.deployData)).

End Faults.

(** * Properties *)

(** ** The stages of the orchestrator *)

Section Stages.
Context `{U : Utils}.

Lemma bind_lift_inr {A B} (x : Result A) (a : A) (k : A -> M B) :
  x = inr a -> bind (lift x) k = k a.
Proof.
  intros ->. unfold bind, lift. destruct (k a) as [t y]. reflexivity.
Qed.

Lemma bind_lift_inl {A B} (x : Result A) (e : Error) (k : A -> M B) :
  x = inl e -> bind (lift x) k = ([], inl e).
Proof. intros ->. reflexivity. Qed.

Lemma bind_emit {B} (ev : Event) (k : unit -> M B) :
  bind (emit ev) k = (ev :: trace (k tt), outcome (k tt)).
Proof. unfold bind, emit, trace, outcome. destruct (k tt). reflexivity. Qed.

Lemma recoveryCheck_eq (p : VerifyHashParameters) :
  recoveryCheck p =
    match getAddress (address p) with
    | inl e => ([], inl e)
    | inr claimed =>
        ([EvRecover (hash p) (signature p)],
         match recoverAddress (hash p) (signature p) with
         | inl e => inl e
         | inr recovered => isAddressEqual claimed recovered
         end)
    end.
Proof.
  unfold recoveryCheck.
  destruct (getAddress (address p)) as [e | claimed] eqn:Hc.
  - reflexivity.
  - cbn. destruct (recoverAddress (hash p) (signature p)) as [e | rec]; cbn.
    + reflexivity.
    + destruct (isAddressEqual claimed rec); reflexivity.
Qed.

(** The inner [try]/[catch] never throws, and tells whether the local check
    confirmed the address. *)
Lemma fallback_eq (p : VerifyHashParameters) :
  fallback p =
    (match getAddress (address p) with
     | inl _ => []
     | inr _ => [EvRecover (hash p) (signature p)]
     end, inr (recoveredMatch p)).
Proof.
  unfold fallback, recoveredMatch. rewrite recoveryCheck_eq.
  destruct (getAddress (address p)) as [e | claimed]; cbn; [reflexivity |].
  destruct (recoverAddress (hash p) (signature p)) as [e | rec]; cbn;
    [reflexivity |].
  destruct (isAddressEqual claimed rec) as [e | [|]]; reflexivity.
Qed.

Lemma onError_eq (p : VerifyHashParameters) (error : Error) :
  onError p error =
    (trace (fallback p),
     if recoveredMatch p then inr true
     else if instanceofCallExecutionError error then inr false
     else inl error).
Proof.
  unfold onError. rewrite fallback_eq. cbn.
  destruct (recoveredMatch p); cbn.
  - rewrite app_nil_r. reflexivity.
  - destruct (instanceofCallExecutionError error); cbn;
      rewrite app_nil_r; reflexivity.
Qed.

Lemma remoteAttempt_eq (client : Client) (p : VerifyHashParameters)
    (w : Hex) (cp : CallParameters) :
  callParameters client p w = inr cp ->
  remoteAttempt client p w =
    ([EvCall cp],
     match call client cp with
     | inl e => inl e
     | inr res => hexToBool (dataOrZero (returnData res))
     end).
Proof.
  intros Hcp. unfold remoteAttempt. rewrite Hcp. cbn.
  destruct (call client cp) as [e | res]; cbn; [reflexivity |].
  destruct (hexToBool (dataOrZero (returnData res))); reflexivity.
Qed.

Lemma remoteAttempt_encode_fails (client : Client)
    (p : VerifyHashParameters) (w : Hex) (e : Error) :
  callParameters client p w = inl e ->
  remoteAttempt client p w = ([], inl e).
Proof. intros Hcp. unfold remoteAttempt. rewrite Hcp. reflexivity. Qed.

(** Once the signature is normalised and wrapped, [verifyHash] is the outer
    [try]/[catch]. *)
Lemma verifyHash_prepared (client : Client) (p : VerifyHashParameters)
    (sh w : Hex) (tw : list Event) :
  signatureHex (signature p) = inr sh ->
  wrappedSignature p sh = (tw, inr w) ->
  verifyHash client p =
    (tw ++ trace (tryCatch (remoteAttempt client p w) (onError p)),
     outcome (tryCatch (remoteAttempt client p w) (onError p))).
Proof.
  intros Hs Hw. unfold verifyHash. rewrite (bind_lift_inr _ sh _ Hs).
  rewrite Hw. unfold bind.
  destruct (tryCatch (remoteAttempt client p w) (onError p)). reflexivity.
Qed.

(** The remote attempt throws: the handler runs. *)
Lemma verifyHash_remote_throws (client : Client) (p : VerifyHashParameters)
    (sh w : Hex) (tw tr : list Event) (e : Error) :
  signatureHex (signature p) = inr sh ->
  wrappedSignature p sh = (tw, inr w) ->
  remoteAttempt client p w = (tr, inl e) ->
  verifyHash client p =
    (tw ++ tr ++ trace (fallback p),
     if recoveredMatch p then inr true
     else if instanceofCallExecutionError e then inr false
     else inl e).
Proof.
  intros Hs Hw Hr. rewrite (verifyHash_prepared client p sh w tw Hs Hw).
  rewrite Hr. unfold tryCatch. rewrite onError_eq. reflexivity.
Qed.

(** The remote attempt returns: so does [verifyHash]. *)
Lemma verifyHash_remote_returns (client : Client) (p : VerifyHashParameters)
    (sh w : Hex) (tw tr : list Event) (b : bool) :
  signatureHex (signature p) = inr sh ->
  wrappedSignature p sh = (tw, inr w) ->
  remoteAttempt client p w = (tr, inr b) ->
  verifyHash client p = (tw ++ tr, inr b).
Proof.
  intros Hs Hw Hr. rewrite (verifyHash_prepared client p sh w tw Hs Hw).
  rewrite Hr. reflexivity.
Qed.

Lemma recoveredMatch_true_iff (p : VerifyHashParameters) :
  recoveredMatch p = true <->
  exists claimed recovered,
    getAddress (address p) = inr claimed /\
    recoverAddress (hash p) (signature p) = inr recovered /\
    isAddressEqual claimed recovered = inr true.
Proof.
  unfold recoveredMatch. split.
  - destruct (getAddress (address p)) as [e | claimed]; [discriminate |].
    destruct (recoverAddress (hash p) (signature p)) as [e | rec];
      [discriminate |].
    destruct (isAddressEqual claimed rec) as [e | [|]] eqn:Heq;
      try discriminate.
    intros _. exists claimed, rec. repeat split; assumption.
  - intros (claimed & rec & -> & -> & ->). reflexivity.
Qed.

(** The wrap events of a wrapping step. *)
Lemma wrappedSignature_eq (p : VerifyHashParameters) (sh : Hex) :
  wrappedSignature p sh =
    match deployment p with
    | None => ([], inr sh)
    | Some (f, d) =>
        if isErc6492Signature sh then ([], inr sh)
        else ([EvWrap f d sh], serializeErc6492Signature f d sh)
    end.
Proof.
  unfold wrappedSignature, factory, factoryData.
  destruct (deployment p) as [[f d] |]; cbn; [| reflexivity].
  destruct (isErc6492Signature sh); [reflexivity |].
  destruct (serializeErc6492Signature f d sh); reflexivity.
Qed.

End Stages.

(** ** Which events a stage can emit *)

Section Traces.
Context `{U : Utils}.

Lemma wrappedSignature_trace (p : VerifyHashParameters) (sh : Hex) :
  filter isCall (trace (wrappedSignature p sh)) = [] /\
  filter isRecover (trace (wrappedSignature p sh)) = [] /\
  filter isWrap (trace (wrappedSignature p sh)) =
    match deployment p with
    | Some (f, d) => if isErc6492Signature sh then [] else [EvWrap f d sh]
    | None => []
    end.
Proof.
  rewrite wrappedSignature_eq.
  destruct (deployment p) as [[f d] |]; [| repeat split].
  destruct (isErc6492Signature sh); repeat split.
Qed.

Lemma fallback_trace (p : VerifyHashParameters) :
  filter isCall (trace (fallback p)) = [] /\
  filter isWrap (trace (fallback p)) = [] /\
  filter isRecover (trace (fallback p)) = trace (fallback p).
Proof.
  rewrite fallback_eq. destruct (getAddress (address p)); repeat split.
Qed.

Lemma remoteAttempt_trace (client : Client) (p : VerifyHashParameters)
    (w : Hex) :
  trace (remoteAttempt client p w) =
    match callParameters client p w with
    | inr cp => [EvCall cp]
    | inl _ => []
    end.
Proof.
  destruct (callParameters client p w) as [e | cp] eqn:Hcp.
  - rewrite (remoteAttempt_encode_fails _ _ _ _ Hcp). reflexivity.
  - rewrite (remoteAttempt_eq _ _ _ _ Hcp). reflexivity.
Qed.

(** The trace of the guarded part: the call (if the payload could be
    built), then the fallback (if something was thrown). *)
Lemma guarded_trace (client : Client) (p : VerifyHashParameters) (w : Hex) :
  trace (tryCatch (remoteAttempt client p w) (onError p)) =
    trace (remoteAttempt client p w) ++
    match outcome (remoteAttempt client p w) with
    | inl _ => trace (fallback p)
    | inr _ => []
    end.
Proof.
  destruct (remoteAttempt client p w) as [tr [e | b]]; cbn.
  - rewrite onError_eq. reflexivity.
  - rewrite app_nil_r. reflexivity.
Qed.

Lemma guarded_events (client : Client) (p : VerifyHashParameters) (w : Hex) :
  let g := trace (tryCatch (remoteAttempt client p w) (onError p)) in
  filter isWrap g = [] /\
  filter isCall g = trace (remoteAttempt client p w) /\
  filter isRecover g =
    match outcome (remoteAttempt client p w) with
    | inl _ => trace (fallback p)
    | inr _ => []
    end.
Proof.
  cbv zeta. rewrite guarded_trace, !filter_app, remoteAttempt_trace.
  destruct (fallback_trace p) as (Hc & Hw & Hr).
  destruct (callParameters client p w) as [e | cp];
    destruct (outcome (remoteAttempt client p w)); cbn;
    rewrite ?Hc, ?Hw, ?Hr; repeat split.
Qed.

End Traces.

(** ** Facts about the utilities of the specification *)

Section SpecFacts.
Import SpecModel.

Lemma valueOf_snoc (ds : list N) (d : N) :
  valueOf (ds ++ [d]) = (16 * valueOf ds + d)%N.
Proof. unfold valueOf. rewrite fold_left_app. reflexivity. Qed.

(** When the value is 0 or 1, it is the last byte. *)
Lemma trailingByte_of_small (ds : list N) :
  (valueOf ds <= 1)%N -> trailingByte ds = valueOf ds.
Proof.
  unfold trailingByte. rewrite <- (rev_involutive ds) at 1 3.
  destruct (rev ds) as [| lo [| hi tl]]; cbn [rev app].
  - reflexivity.
  - unfold valueOf; cbn [fold_left]. lia.
  - rewrite !valueOf_snoc. lia.
Qed.

Lemma hexToBool_trailing (h : Hex) (b : bool) :
  hexToBool h = inr b -> (b = true <-> trailingByteOf h <> 0%N).
Proof.
  unfold hexToBool, trailingByteOf.
  destruct (nibbles (hexBody h)) as [ds |]; [| discriminate].
  destruct (valueOf ds) as [| v] eqn:Hv.
  - intros [= <-]. rewrite trailingByte_of_small, Hv by lia.
    split; [discriminate | congruence].
  - destruct v; try discriminate.
    intros [= <-]. rewrite trailingByte_of_small, Hv by lia.
    split; [discriminate | reflexivity].
Qed.

Lemma hexToBool_shape (h : Hex) (b : bool) :
  hexToBool h = inr b ->
  exists ds, nibbles (hexBody h) = Some ds /\ valueOf ds = N.b2n b.
Proof.
  unfold hexToBool.
  destruct (nibbles (hexBody h)) as [ds |]; [| discriminate].
  destruct (valueOf ds) as [| v] eqn:Hv.
  - intros [= <-]. exists ds. split; [reflexivity | assumption].
  - destruct v; try discriminate.
    intros [= <-]. exists ds. split; [reflexivity | assumption].
Qed.

(** The decoder is defined on all boolean-shaped data. *)
Lemma hexToBool_of_small (h : Hex) (ds : list N) :
  nibbles (hexBody h) = Some ds ->
  (valueOf ds <= 1)%N ->
  hexToBool h = inr (negb (trailingByteOf h =? 0)%N).
Proof.
  intros Hds Hsmall. unfold hexToBool, trailingByteOf. rewrite Hds.
  rewrite (trailingByte_of_small ds Hsmall).
  destruct (valueOf ds) as [| v]; [reflexivity |].
  destruct v; try lia. reflexivity.
Qed.

Lemma isHex_rejects (h : Hex) : malformedOrOdd h = true -> isHex h = false.
Proof.
  unfold malformedOrOdd, isHex.
  destruct (wellFormed h), (oddLength h); cbn; congruence.
Qed.

End SpecFacts.

(** ** The claims *)

Section Claims.
Context `{U : Utils}.

(** C1 (as amended).  When the call executor fails with an error that is not
    a [CallExecutionError], [verifyHash] still runs the local recovery
    check after the call: it returns [true] when the recovered address
    matches the claimed one, and throws the executor's error otherwise.  It
    never returns [false]. *)
Theorem non_revert_failure_goes_through_fallback
    (client : Client) (p : VerifyHashParameters) (sh w : Hex)
    (tw : list Event) (cp : CallParameters) (e : Error) :
  signatureHex (signature p) = inr sh ->
  wrappedSignature p sh = (tw, inr w) ->
  callParameters client p w = inr cp ->
  call client cp = inl e ->
  instanceofCallExecutionError e = false ->
  verifyHash client p =
    (tw ++ [EvCall cp] ++ trace (fallback p),
     if recoveredMatch p then inr true else inl e) /\
  outcome (verifyHash client p) <> inr false.
Proof.
  intros Hs Hw Hcp Hcall He.
  assert (Hr : remoteAttempt client p w = ([EvCall cp], inl e)).
  { rewrite (remoteAttempt_eq _ _ _ _ Hcp), Hcall. reflexivity. }
  rewrite (verifyHash_remote_throws _ _ _ _ _ _ _ Hs Hw Hr), He.
  split; [reflexivity |].
  unfold outcome; cbn. destruct (recoveredMatch p); discriminate.
Qed.

(** C2.  When the call executor fails with a [CallExecutionError] (an
    execution revert), [verifyHash] returns a boolean and never throws: it
    returns [true] exactly when the claimed address canonicalises, local
    recovery succeeds and the two addresses compare equal, and [false]
    otherwise. *)
Theorem revert_is_settled_by_recovery
    (client : Client) (p : VerifyHashParameters) (sh w : Hex)
    (tw : list Event) (cp : CallParameters) (e : Error) :
  signatureHex (signature p) = inr sh ->
  wrappedSignature p sh = (tw, inr w) ->
  callParameters client p w = inr cp ->
  call client cp = inl e ->
  instanceofCallExecutionError e = true ->
  exists b : bool,
    outcome (verifyHash client p) = inr b /\
    (b = true <->
     exists claimed recovered,
       getAddress (address p) = inr claimed /\
       recoverAddress (hash p) (signature p) = inr recovered /\
       isAddressEqual claimed recovered = inr true).
Proof.
  intros Hs Hw Hcp Hcall He.
  assert (Hr : remoteAttempt client p w = ([EvCall cp], inl e)).
  { rewrite (remoteAttempt_eq _ _ _ _ Hcp), Hcall. reflexivity. }
  exists (recoveredMatch p). split.
  - rewrite (verifyHash_remote_throws _ _ _ _ _ _ _ Hs Hw Hr), He.
    unfold outcome; cbn. destruct (recoveredMatch p); reflexivity.
  - apply recoveredMatch_true_iff.
Qed.

(** C3.  Once the signature is normalised and wrapped, the payload is
    selected by the chain configuration alone, and the two cases exclude
    each other and cover every client.  When the client's chain names a
    universal validator ([chain], [contracts] and
    [universalSignatureVerifier] all present), the payload is a call to
    that contract's address whose data is the encoded
    [isValidUniversalSig(address, hash, signature)] invocation.  When it
    names none (no chain, no [contracts], or no
    [universalSignatureVerifier]), the payload has no destination and its
    data is the validator byte code followed by the encoded constructor
    arguments [(address, hash, signature)].  In both cases this payload,
    and no other, is handed to the call executor, exactly once; no payload
    is built only when the encoder throws. *)
Theorem call_payload_selection
    (client : Client) (p : VerifyHashParameters) (sh w : Hex)
    (tw : list Event) :
  signatureHex (signature p) = inr sh ->
  wrappedSignature p sh = (tw, inr w) ->
  (forall ch cs verifier d,
     chain client = Some ch ->
     contracts ch = Some cs ->
     universalSignatureVerifier cs = Some verifier ->
     encodeFunctionData universalSignatureValidatorAbi
       "isValidUniversalSig" [address p; hash p; w] = inr d ->
     let cp := {| to := Some (contractAddress verifier);
                  data := d;
                  callRest := rest p |} in
     callParameters client p w = inr cp /\
     filter isCall (trace (verifyHash client p)) = [EvCall cp]) /\
  (forall encoded,
     chain client = None \/
     (exists ch, chain client = Some ch /\ contracts ch = None) \/
     (exists ch cs, chain client = Some ch /\ contracts ch = Some cs /\
                    universalSignatureVerifier cs = None) ->
     encodeConstructorArgs universalSignatureValidatorAbi
       [address p; hash p; w] = inr encoded ->
     let cp := {| to := None;
                  data := Hex0x (hexBody universalSignatureValidatorByteCode
                                 ++ hexBody encoded)%string;
                  callRest := rest p |} in
     callParameters client p w = inr cp /\
     filter isCall (trace (verifyHash client p)) = [EvCall cp]) /\
  ((exists ch cs verifier,
      chain client = Some ch /\ contracts ch = Some cs /\
      universalSignatureVerifier cs = Some verifier) \/
   (chain client = None \/
    (exists ch, chain client = Some ch /\ contracts ch = None) \/
    (exists ch cs, chain client = Some ch /\ contracts ch = Some cs /\
                   universalSignatureVerifier cs = None))) /\
  ((exists ch cs verifier,
      chain client = Some ch /\ contracts ch = Some cs /\
      universalSignatureVerifier cs = Some verifier) ->
   (chain client = None \/
    (exists ch, chain client = Some ch /\ contracts ch = None) \/
    (exists ch cs, chain client = Some ch /\ contracts ch = Some cs /\
                   universalSignatureVerifier cs = None)) ->
   False) /\
  (forall e,
     (forall ch cs verifier,
        chain client = Some ch -> contracts ch = Some cs ->
        universalSignatureVerifier cs = Some verifier ->
        encodeFunctionData universalSignatureValidatorAbi
          "isValidUniversalSig" [address p; hash p; w] = inl e) ->
     (chain client = None \/
      (exists ch, chain client = Some ch /\ contracts ch = None) \/
      (exists ch cs, chain client = Some ch /\ contracts ch = Some cs /\
                     universalSignatureVerifier cs = None) ->
      encodeConstructorArgs universalSignatureValidatorAbi
        [address p; hash p; w] = inl e) ->
     callParameters client p w = inl e /\
     filter isCall (trace (verifyHash client p)) = []).
Proof.
  intros Hs Hw.
  assert (Hcalls : filter isCall (trace (verifyHash client p)) =
                     match callParameters client p w with
                     | inr cp => [EvCall cp]
                     | inl _ => []
                     end).
  { rewrite (verifyHash_prepared _ _ _ _ _ Hs Hw).
    unfold trace at 1; cbn [fst]. rewrite filter_app.
    destruct (wrappedSignature_trace p sh) as (Hc & _ & _).
    rewrite Hw in Hc. cbn [trace fst] in Hc. rewrite Hc.
    destruct (guarded_events client p w) as (_ & Hg & _).
    cbn [app]. rewrite Hg. apply remoteAttempt_trace. }
  assert (Hknown : forall ch cs verifier,
            chain client = Some ch -> contracts ch = Some cs ->
            universalSignatureVerifier cs = Some verifier ->
            chainVerifier client = Some verifier).
  { intros ch cs verifier Hch Hcs Hv. unfold chainVerifier.
    rewrite Hch, Hcs. exact Hv. }
  assert (Hunknown :
            chain client = None \/
            (exists ch, chain client = Some ch /\ contracts ch = None) \/
            (exists ch cs, chain client = Some ch /\ contracts ch = Some cs /\
                           universalSignatureVerifier cs = None) ->
            chainVerifier client = None).
  { unfold chainVerifier.
    intros [Hch | [(ch & Hch & Hcs) | (ch & cs & Hch & Hcs & Hv)]].
    - rewrite Hch. reflexivity.
    - rewrite Hch, Hcs. reflexivity.
    - rewrite Hch, Hcs. exact Hv. }
  split; [| split; [| split; [| split]]].
  - intros ch cs verifier d Hch Hcs Hv Hd cp.
    assert (Hcp : callParameters client p w = inr cp).
    { unfold callParameters. rewrite (Hknown _ _ _ Hch Hcs Hv), Hd.
      reflexivity. }
    split; [exact Hcp |]. rewrite Hcalls, Hcp. reflexivity.
  - intros encoded Hnone Henc cp.
    assert (Hcp : callParameters client p w = inr cp).
    { unfold callParameters, encodeDeployData.
      rewrite (Hunknown Hnone), Henc. reflexivity. }
    split; [exact Hcp |]. rewrite Hcalls, Hcp. reflexivity.
  - destruct (chain client) as [ch |] eqn:Hch; [| right; left; reflexivity].
    destruct (contracts ch) as [cs |] eqn:Hcs.
    2:{ right. right. left. exists ch. split; [reflexivity | exact Hcs]. }
    destruct (universalSignatureVerifier cs) as [v |] eqn:Hv.
    + left. exists ch, cs, v. repeat split; assumption.
    + right. right. right. exists ch, cs. repeat split; assumption.
  - intros (ch & cs & v & Hch & Hcs & Hv) Hnone.
    pose proof (Hknown _ _ _ Hch Hcs Hv) as Hsome.
    rewrite (Hunknown Hnone) in Hsome. discriminate.
  - intros e Hfun Hctor.
    assert (Hcp : callParameters client p w = inl e).
    { unfold callParameters, encodeDeployData.
      destruct (chain client) as [ch |] eqn:Hch.
      2:{ unfold chainVerifier. rewrite Hch.
          rewrite (Hctor (or_introl eq_refl)). reflexivity. }
      destruct (contracts ch) as [cs |] eqn:Hcs.
      2:{ unfold chainVerifier. rewrite Hch, Hcs.
          rewrite (Hctor (or_intror (or_introl
                     (ex_intro _ ch (conj eq_refl Hcs))))).
          reflexivity. }
      destruct (universalSignatureVerifier cs) as [v |] eqn:Hv.
      - rewrite (Hknown ch cs v eq_refl Hcs Hv).
        rewrite (Hfun ch cs v eq_refl Hcs Hv). reflexivity.
      - unfold chainVerifier. rewrite Hch, Hcs, Hv.
        rewrite (Hctor (or_intror (or_intror
                   (ex_intro _ ch (ex_intro _ cs
                      (conj eq_refl (conj Hcs Hv))))))).
        reflexivity. }
    split; [exact Hcp |]. rewrite Hcalls, Hcp. reflexivity.
Qed.

(** C4.  The wrapper is invoked exactly when a deployment recipe is given
    and the normalised signature is not already wrapped.  Without a recipe,
    or with an already wrapped signature, the signature is passed on
    unchanged and the wrapper is not invoked. *)
Theorem wrap_exactly_when_needed
    (client : Client) (p : VerifyHashParameters) (sh : Hex) :
  signatureHex (signature p) = inr sh ->
  (deployment p = None -> wrappedSignature p sh = ([], inr sh)) /\
  (isErc6492Signature sh = true -> wrappedSignature p sh = ([], inr sh)) /\
  (forall f d, deployment p = Some (f, d) ->
     isErc6492Signature sh = false ->
     wrappedSignature p sh = ([EvWrap f d sh], serializeErc6492Signature f d sh)) /\
  filter isWrap (trace (verifyHash client p)) =
    match deployment p with
    | Some (f, d) => if isErc6492Signature sh then [] else [EvWrap f d sh]
    | None => []
    end.
Proof.
  intros Hs. repeat split.
  - intros Hd. rewrite wrappedSignature_eq, Hd. reflexivity.
  - intros Hi. rewrite wrappedSignature_eq, Hi.
    destruct (deployment p) as [[f d] |]; reflexivity.
  - intros f d Hd Hi. rewrite wrappedSignature_eq, Hd, Hi. reflexivity.
  - destruct (wrappedSignature_trace p sh) as (_ & _ & Hwr).
    destruct (wrappedSignature p sh) as [tw [e | w]] eqn:Hw.
    + unfold verifyHash. rewrite (bind_lift_inr _ sh _ Hs), Hw.
      exact Hwr.
    + rewrite (verifyHash_prepared _ _ _ _ _ Hs Hw).
      unfold trace at 1; cbn [fst]. rewrite filter_app.
      destruct (guarded_events client p w) as (Hg & _ & _).
      rewrite Hg, app_nil_r. exact Hwr.
Qed.

(** C5 (as amended).  When the call succeeds but the decoder rejects the
    returned data, the decoder's error is caught like any remote failure:
    the local recovery check runs, [verifyHash] returns [true] when the
    recovered address matches the claimed one, and throws the decoder's
    error otherwise.  It never returns [false]. *)
Theorem decoder_failure_goes_through_fallback
    (client : Client) (p : VerifyHashParameters) (sh w : Hex)
    (tw : list Event) (cp : CallParameters) (res : CallReturnType)
    (e : Error) :
  signatureHex (signature p) = inr sh ->
  wrappedSignature p sh = (tw, inr w) ->
  callParameters client p w = inr cp ->
  call client cp = inr res ->
  hexToBool (dataOrZero (returnData res)) = inl e ->
  isEncodingError e = true ->
  verifyHash client p =
    (tw ++ [EvCall cp] ++ trace (fallback p),
     if recoveredMatch p then inr true else inl e) /\
  outcome (verifyHash client p) <> inr false.
Proof.
  intros Hs Hw Hcp Hcall Hdec He.
  assert (Hr : remoteAttempt client p w = ([EvCall cp], inl e)).
  { rewrite (remoteAttempt_eq _ _ _ _ Hcp), Hcall. cbn. rewrite Hdec.
    reflexivity. }
  assert (Hn : instanceofCallExecutionError e = false)
    by (destruct e; try discriminate; reflexivity).
  rewrite (verifyHash_remote_throws _ _ _ _ _ _ _ Hs Hw Hr), Hn.
  split; [reflexivity |].
  unfold outcome; cbn. destruct (recoveredMatch p); discriminate.
Qed.

(** C6.  With the guard and the byte conversion of the specification, a hex
    string that is malformed or of odd length makes normalisation fail with
    an encoding error; [verifyHash] throws that error, and neither the call
    executor nor the recovery (nor the wrapper) is invoked. *)
Theorem malformed_hex_signature_is_fatal
    (client : Client) (p : VerifyHashParameters) (h : Hex) :
  isHex = SpecModel.isHex ->
  bytesToHex = SpecModel.bytesToHex ->
  signature p = SigHex h ->
  SpecModel.malformedOrOdd h = true ->
  exists e,
    isEncodingError e = true /\
    signatureHex (signature p) = inl e /\
    verifyHash client p = ([], inl e).
Proof.
  intros HisHex Hbytes Hsig Hbad.
  exists (EncodingError "malformed hex signature").
  assert (Hn : signatureHex (signature p)
               = inl (EncodingError "malformed hex signature")).
  { rewrite Hsig. unfold signatureHex. rewrite HisHex, Hbytes.
    rewrite (isHex_rejects h Hbad). reflexivity. }
  repeat split; [exact Hn |].
  unfold verifyHash. rewrite (bind_lift_inl _ _ _ Hn). reflexivity.
Qed.

(** C7 (as amended).  When the remote attempt throws, the recovery is
    invoked at most once (exactly once when the claimed address
    canonicalises), with the hash and the signature exactly as the caller
    passed them: neither the normalised nor the wrapped signature, and
    nothing unwrapped. *)
Theorem recovery_receives_caller_signature
    (client : Client) (p : VerifyHashParameters) (sh w : Hex)
    (tw tr : list Event) (e : Error) :
  signatureHex (signature p) = inr sh ->
  wrappedSignature p sh = (tw, inr w) ->
  remoteAttempt client p w = (tr, inl e) ->
  filter isRecover (trace (verifyHash client p)) =
    match getAddress (address p) with
    | inr _ => [EvRecover (hash p) (signature p)]
    | inl _ => []
    end.
Proof.
  intros Hs Hw Hr.
  rewrite (verifyHash_prepared _ _ _ _ _ Hs Hw).
  unfold trace at 1; cbn [fst]. rewrite filter_app.
  destruct (wrappedSignature_trace p sh) as (_ & Hrec & _).
  rewrite Hw in Hrec. cbn [trace fst] in Hrec. rewrite Hrec.
  destruct (guarded_events client p w) as (_ & _ & Hg).
  cbn [app]. rewrite Hg, Hr. unfold outcome; cbn [snd].
  rewrite fallback_eq. reflexivity.
Qed.

(** C8.  With the decoder of the specification, when the call succeeds the
    boolean the decoder yields is the result of [verifyHash]; absent or
    empty returned data gives [false]; for any returned data that decodes,
    the boolean is [true] exactly when the last byte is not zero; and all
    boolean-shaped data (value 0 or 1) does decode. *)
Theorem successful_call_is_decoded
    (client : Client) (p : VerifyHashParameters) (sh w : Hex)
    (tw : list Event) (cp : CallParameters) (res : CallReturnType) :
  hexToBool = SpecModel.hexToBool ->
  signatureHex (signature p) = inr sh ->
  wrappedSignature p sh = (tw, inr w) ->
  callParameters client p w = inr cp ->
  call client cp = inr res ->
  (forall b, hexToBool (dataOrZero (returnData res)) = inr b ->
     outcome (verifyHash client p) = inr b) /\
  (returnData res = None \/ returnData res = Some (Hex0x "") ->
     outcome (verifyHash client p) = inr false) /\
  (forall h b, returnData res = Some h -> hexToBool h = inr b ->
     (b = true <-> SpecModel.trailingByteOf h <> 0%N)) /\
  (forall h ds, returnData res = Some h ->
     SpecModel.nibbles (hexBody h) = Some ds ->
     (SpecModel.valueOf ds <= 1)%N ->
     outcome (verifyHash client p)
       = inr (negb (SpecModel.trailingByteOf h =? 0)%N)).
Proof.
  intros Hdec Hs Hw Hcp Hcall.
  assert (Hok : forall b, hexToBool (dataOrZero (returnData res)) = inr b ->
                  outcome (verifyHash client p) = inr b).
  { intros b Hb.
    assert (Hr : remoteAttempt client p w = ([EvCall cp], inr b)).
    { rewrite (remoteAttempt_eq _ _ _ _ Hcp), Hcall. cbn. rewrite Hb.
      reflexivity. }
    rewrite (verifyHash_remote_returns _ _ _ _ _ _ _ Hs Hw Hr).
    reflexivity. }
  split; [exact Hok | split; [| split]].
  - intros [Hnone | Hempty]; apply Hok.
    + rewrite Hnone, Hdec. reflexivity.
    + rewrite Hempty, Hdec. reflexivity.
  - intros h b _ Hb. rewrite Hdec in Hb.
    apply hexToBool_trailing. exact Hb.
  - intros h ds Hsome Hds Hsmall. apply Hok.
    rewrite Hsome, Hdec. cbn [dataOrZero].
    rewrite (hexToBool_of_small h ds Hds Hsmall). reflexivity.
Qed.

(** C9.  An error thrown by the recovery inside the fallback is swallowed:
    the fallback just does not confirm, and what [verifyHash] then does
    depends on the remote failure alone: [false] for a
    [CallExecutionError], the remote error itself otherwise. *)
Theorem recovery_error_is_swallowed
    (client : Client) (p : VerifyHashParameters) (sh w : Hex)
    (tw tr : list Event) (e er : Error) :
  signatureHex (signature p) = inr sh ->
  wrappedSignature p sh = (tw, inr w) ->
  remoteAttempt client p w = (tr, inl e) ->
  recoverAddress (hash p) (signature p) = inl er ->
  outcome (fallback p) = inr false /\
  outcome (verifyHash client p) =
    if instanceofCallExecutionError e then inr false else inl e.
Proof.
  intros Hs Hw Hr Hrec.
  assert (Hm : recoveredMatch p = false).
  { unfold recoveredMatch. rewrite Hrec.
    destruct (getAddress (address p)); reflexivity. }
  split.
  - rewrite fallback_eq, Hm. reflexivity.
  - rewrite (verifyHash_remote_throws _ _ _ _ _ _ _ Hs Hw Hr), Hm.
    reflexivity.
Qed.

(** C10.  Whatever is thrown in the remote path (while encoding the
    payload, by the call executor, or by the decoder), if the claimed
    address canonicalises, recovery of the caller's signature succeeds and
    the two addresses compare equal, [verifyHash] returns [true]. *)
Theorem recovery_match_masks_any_failure
    (client : Client) (p : VerifyHashParameters) (sh w : Hex)
    (tw tr : list Event) (e : Error) (claimed recovered : Address) :
  signatureHex (signature p) = inr sh ->
  wrappedSignature p sh = (tw, inr w) ->
  remoteAttempt client p w = (tr, inl e) ->
  getAddress (address p) = inr claimed ->
  recoverAddress (hash p) (signature p) = inr recovered ->
  isAddressEqual claimed recovered = inr true ->
  outcome (verifyHash client p) = inr true.
Proof.
  intros Hs Hw Hr Hc Hrec Heq.
  assert (Hm : recoveredMatch p = true).
  { apply recoveredMatch_true_iff. exists claimed, recovered.
    repeat split; assumption. }
  rewrite (verifyHash_remote_throws _ _ _ _ _ _ _ Hs Hw Hr), Hm.
  reflexivity.
Qed.

End Claims.

(** ** The claims on concrete requests *)

Section Examples.
Import Scenario.

(** C1, counterexample to the original wording: the executor times out (a
    transport fault, not a revert), yet recovery is attempted and
    [verifyHash] returns [true] instead of throwing. *)
Lemma transport_fault_masked_by_recovery :
  call (onZksync unreachable) (callToVerifier plainRequest plainSignature)
    = inl (TransportError "request timed out") /\
  instanceofCallExecutionError (TransportError "request timed out") = false /\
  verifyHash (U := utils) (onZksync unreachable) plainRequest
    = ([EvCall (callToVerifier plainRequest plainSignature);
        EvRecover messageHash (SigHex plainSignature)],
       inr true).
Proof. repeat split. Qed.

Lemma non_revert_failure_goes_through_fallback_witness :
  (signatureHex (U := utils) (signature strangerRequest) = inr plainSignature /\
   wrappedSignature (U := utils) strangerRequest plainSignature
     = ([], inr plainSignature) /\
   call (onZksync unreachable) (callToVerifier strangerRequest plainSignature)
     = inl (TransportError "request timed out")) /\
  verifyHash (U := utils) (onZksync unreachable) strangerRequest
    = ([EvCall (callToVerifier strangerRequest plainSignature);
        EvRecover messageHash (SigHex plainSignature)],
       inl (TransportError "request timed out")) /\
  outcome (verifyHash (U := utils) (onZksync unreachable) strangerRequest)
    <> inr false.
Proof.
  split; [repeat split |].
  apply (non_revert_failure_goes_through_fallback (U := utils)
           (onZksync unreachable) strangerRequest plainSignature plainSignature
           [] (callToVerifier strangerRequest plainSignature)
           (TransportError "request timed out"));
    reflexivity.
Defined.

Lemma revert_is_settled_by_recovery_witness :
  (call (onZksync reverting) (callToVerifier strangerRequest plainSignature)
     = inl (CallExecutionError "execution reverted") /\
   verifyHash (U := utils) (onZksync reverting) strangerRequest
     = ([EvCall (callToVerifier strangerRequest plainSignature);
         EvRecover messageHash (SigHex plainSignature)],
        inr false)) /\
  exists b : bool,
    outcome (verifyHash (U := utils) (onZksync reverting) strangerRequest)
      = inr b /\
    (b = true <->
     exists claimed recovered,
       normalizeAddress stranger = inr claimed /\
       recover messageHash (SigHex plainSignature) = inr recovered /\
       sameAddress claimed recovered = inr true).
Proof.
  split; [repeat split |].
  apply (revert_is_settled_by_recovery (U := utils)
           (onZksync reverting) strangerRequest plainSignature plainSignature
           [] (callToVerifier strangerRequest plainSignature)
           (CallExecutionError "execution reverted"));
    reflexivity.
Defined.

(** The signer's own signature against a reverting validator: [true]. *)
Example revert_with_matching_recovery :
  verifyHash (U := utils) (onZksync reverting) plainRequest
    = ([EvCall (callToVerifier plainRequest plainSignature);
        EvRecover messageHash (SigHex plainSignature)],
       inr true).
Proof. reflexivity. Qed.

Lemma call_payload_selection_witness :
  (signatureHex (U := utils) (signature counterfactualRequest)
     = inr plainSignature /\
   wrappedSignature (U := utils) counterfactualRequest plainSignature
     = ([EvWrap accountFactory deployData plainSignature],
        inr wrappedSignatureOfSigner)) /\
  (callParameters (U := utils) (onZksync (answering (Some wordTrue)))
       counterfactualRequest wrappedSignatureOfSigner
     = inr (callToVerifier counterfactualRequest wrappedSignatureOfSigner) /\
   filter isCall
     (trace (verifyHash (U := utils) (onZksync (answering (Some wordTrue)))
               counterfactualRequest))
     = [EvCall (callToVerifier counterfactualRequest
                  wrappedSignatureOfSigner)]) /\
  (callParameters (U := utils) (withoutChain (answering (Some wordTrue)))
       counterfactualRequest wrappedSignatureOfSigner
     = inr (deployAndCall counterfactualRequest wrappedSignatureOfSigner) /\
   filter isCall
     (trace (verifyHash (U := utils) (withoutChain (answering (Some wordTrue)))
               counterfactualRequest))
     = [EvCall (deployAndCall counterfactualRequest
                  wrappedSignatureOfSigner)]).
Proof.
  split; [repeat split | split].
  - destruct (call_payload_selection (U := utils)
                (onZksync (answering (Some wordTrue)))
                counterfactualRequest plainSignature wrappedSignatureOfSigner
                [EvWrap accountFactory deployData plainSignature]
                eq_refl eq_refl) as (Hknown & _).
    exact (Hknown zksync
             {| multicall3 :=
                  Some {| contractAddress :=
                            Hex0x "F9cda624FBC7e059355ce98a31693d299FACd963";
                          blockCreated := None |};
                universalSignatureVerifier :=
                  Some {| contractAddress := zksyncVerifier;
                          blockCreated := Some 45659388%Z |} |}
             {| contractAddress := zksyncVerifier;
                blockCreated := Some 45659388%Z |}
             (packArgs [address counterfactualRequest;
                        hash counterfactualRequest;
                        wrappedSignatureOfSigner])
             eq_refl eq_refl eq_refl eq_refl).
  - destruct (call_payload_selection (U := utils)
                (withoutChain (answering (Some wordTrue)))
                counterfactualRequest plainSignature wrappedSignatureOfSigner
                [EvWrap accountFactory deployData plainSignature]
                eq_refl eq_refl) as (_ & Hdeploy & _).
    exact (Hdeploy
             (packArgs [address counterfactualRequest;
                        hash counterfactualRequest;
                        wrappedSignatureOfSigner])
             (or_introl eq_refl) eq_refl).
Defined.

(** On ZKsync the configured validator is called. *)
Example zksync_calls_configured_validator :
  chainVerifier (onZksync (answering (Some wordTrue)))
    = Some {| contractAddress := zksyncVerifier;
              blockCreated := Some 45659388%Z |} /\
  verifyHash (U := utils) (onZksync (answering (Some wordTrue)))
      counterfactualRequest
    = ([EvWrap accountFactory deployData plainSignature;
        EvCall (callToVerifier counterfactualRequest wrappedSignatureOfSigner)],
       inr true).
Proof. split; reflexivity. Qed.

Lemma wrap_exactly_when_needed_witness :
  (signatureHex (U := utils) (signature wrappedRequest)
     = inr wrappedSignatureOfSigner /\
   SpecModel.isErc6492Signature wrappedSignatureOfSigner = true) /\
  wrappedSignature (U := utils) wrappedRequest wrappedSignatureOfSigner
    = ([], inr wrappedSignatureOfSigner) /\
  filter isWrap
    (trace (verifyHash (U := utils) (withoutChain (answering (Some wordTrue)))
              wrappedRequest))
    = [].
Proof.
  split; [repeat split |].
  destruct (wrap_exactly_when_needed (U := utils)
              (withoutChain (answering (Some wordTrue)))
              wrappedRequest wrappedSignatureOfSigner eq_refl)
    as (_ & Hwrapped & _ & Hevents).
  split; [exact (Hwrapped eq_refl) | exact Hevents].
Defined.

(** C5, counterexample to the original wording: the call succeeds with data
    that is not boolean-shaped; the decoder's error is caught, recovery is
    attempted, and [verifyHash] returns [true]. *)
Lemma undecodable_data_masked_by_recovery :
  call (withoutChain (answering (Some wordTwo)))
       (deployAndCall plainRequest plainSignature)
    = inr {| returnData := Some wordTwo |} /\
  SpecModel.hexToBool wordTwo = inl (InvalidHexBooleanError wordTwo) /\
  verifyHash (U := utils) (withoutChain (answering (Some wordTwo))) plainRequest
    = ([EvCall (deployAndCall plainRequest plainSignature);
        EvRecover messageHash (SigHex plainSignature)],
       inr true).
Proof. repeat split. Qed.

Lemma decoder_failure_goes_through_fallback_witness :
  (call (withoutChain (answering (Some wordTwo)))
        (deployAndCall strangerRequest plainSignature)
     = inr {| returnData := Some wordTwo |} /\
   hexToBool (Utils := utils) wordTwo = inl (InvalidHexBooleanError wordTwo)) /\
  verifyHash (U := utils) (withoutChain (answering (Some wordTwo)))
      strangerRequest
    = ([EvCall (deployAndCall strangerRequest plainSignature);
        EvRecover messageHash (SigHex plainSignature)],
       inl (InvalidHexBooleanError wordTwo)) /\
  outcome (verifyHash (U := utils) (withoutChain (answering (Some wordTwo)))
             strangerRequest)
    <> inr false.
Proof.
  split; [repeat split |].
  apply (decoder_failure_goes_through_fallback (U := utils)
           (withoutChain (answering (Some wordTwo))) strangerRequest
           plainSignature plainSignature []
           (deployAndCall strangerRequest plainSignature)
           {| returnData := Some wordTwo |}
           (InvalidHexBooleanError wordTwo));
    reflexivity.
Defined.

Lemma malformed_hex_signature_is_fatal_witness :
  SpecModel.malformedOrOdd (Hex0x "12zz") = true /\
  exists e,
    isEncodingError e = true /\
    signatureHex (U := utils) (signature malformedRequest) = inl e /\
    verifyHash (U := utils) (onZksync reverting) malformedRequest
      = ([], inl e).
Proof.
  split; [reflexivity |].
  apply (malformed_hex_signature_is_fatal (U := utils)
           (onZksync reverting) malformedRequest (Hex0x "12zz"));
    reflexivity.
Defined.

(** An odd number of digits is rejected as well. *)
Example odd_length_signature_is_fatal :
  verifyHash (U := utils) (onZksync reverting)
      (parametersFor signer (SigHex (Hex0x "123")) None)
    = ([], inl (EncodingError "malformed hex signature")).
Proof. reflexivity. Qed.

(** C7, counterexample to the original wording: the caller passes a wrapped
    signature; recovery is handed the wrapper bytes, not the inner
    signature. *)
Lemma wrapped_input_recovered_as_wrapper :
  wrap accountFactory deployData plainSignature
    = inr wrappedSignatureOfSigner /\
  SpecModel.isErc6492Signature wrappedSignatureOfSigner = true /\
  filter isRecover
    (trace (verifyHash (U := utils) (withoutChain reverting) wrappedRequest))
    = [EvRecover messageHash (SigHex wrappedSignatureOfSigner)] /\
  SigHex wrappedSignatureOfSigner <> SigHex plainSignature.
Proof. repeat split. discriminate. Qed.

Lemma recovery_receives_caller_signature_witness :
  remoteAttempt (U := utils) (withoutChain reverting) wrappedRequest
      wrappedSignatureOfSigner
    = ([EvCall (deployAndCall wrappedRequest wrappedSignatureOfSigner)],
       inl (CallExecutionError "execution reverted")) /\
  filter isRecover
    (trace (verifyHash (U := utils) (withoutChain reverting) wrappedRequest))
    = [EvRecover (hash wrappedRequest) (signature wrappedRequest)].
Proof.
  split; [reflexivity |].
  apply (recovery_receives_caller_signature (U := utils)
           (withoutChain reverting) wrappedRequest
           wrappedSignatureOfSigner wrappedSignatureOfSigner []
           [EvCall (deployAndCall wrappedRequest wrappedSignatureOfSigner)]
           (CallExecutionError "execution reverted"));
    reflexivity.
Defined.

Lemma successful_call_is_decoded_witness :
  call (withoutChain (answering None))
       (deployAndCall plainRequest plainSignature)
    = inr {| returnData := None |} /\
  outcome (verifyHash (U := utils) (withoutChain (answering None)) plainRequest)
    = inr false.
Proof.
  split; [reflexivity |].
  destruct (successful_call_is_decoded (U := utils)
              (withoutChain (answering None)) plainRequest
              plainSignature plainSignature []
              (deployAndCall plainRequest plainSignature)
              {| returnData := None |}
              eq_refl eq_refl eq_refl eq_refl eq_refl)
    as (_ & Habsent & _ & _).
  exact (Habsent (or_introl eq_refl)).
Defined.

(** A 32-byte word of value one decodes to [true]. *)
Example call_returning_true :
  SpecModel.trailingByteOf wordTrue = 1%N /\
  verifyHash (U := utils) (withoutChain (answering (Some wordTrue))) plainRequest
    = ([EvCall (deployAndCall plainRequest plainSignature)], inr true).
Proof. split; reflexivity. Qed.

Lemma recovery_error_is_swallowed_witness :
  (recover messageHash (SigHex wrappedSignatureOfSigner)
     = inl (RecoveryError "invalid signature") /\
   remoteAttempt (U := utils) (withoutChain unreachable) wrappedRequest
       wrappedSignatureOfSigner
     = ([EvCall (deployAndCall wrappedRequest wrappedSignatureOfSigner)],
        inl (TransportError "request timed out"))) /\
  outcome (fallback (U := utils) wrappedRequest) = inr false /\
  outcome (verifyHash (U := utils) (withoutChain unreachable) wrappedRequest)
    = inl (TransportError "request timed out").
Proof.
  split; [repeat split |].
  apply (recovery_error_is_swallowed (U := utils)
           (withoutChain unreachable) wrappedRequest
           wrappedSignatureOfSigner wrappedSignatureOfSigner []
           [EvCall (deployAndCall wrappedRequest wrappedSignatureOfSigner)]
           (TransportError "request timed out")
           (RecoveryError "invalid signature"));
    reflexivity.
Defined.

Lemma recovery_match_masks_any_failure_witness :
  (remoteAttempt (U := utils) (onZksync unreachable) plainRequest plainSignature
     = ([EvCall (callToVerifier plainRequest plainSignature)],
        inl (TransportError "request timed out")) /\
   recover messageHash (SigHex plainSignature) = inr signer /\
   sameAddress signer signer = inr true) /\
  outcome (verifyHash (U := utils) (onZksync unreachable) plainRequest)
    = inr true.
Proof.
  split; [repeat split |].
  apply (recovery_match_masks_any_failure (U := utils)
           (onZksync unreachable) plainRequest plainSignature plainSignature
           [] [EvCall (callToVerifier plainRequest plainSignature)]
           (TransportError "request timed out") signer signer);
    reflexivity.
Defined.

End Examples.

(** ** Further properties of [verifyHash] *)

Section Decision.
Context `{U : Utils}.

(** [verifyHash] stage by stage, for every input. *)
Lemma verifyHash_eq (client : Client) (p : VerifyHashParameters) :
  verifyHash client p =
    match signatureHex (signature p) with
    | inl e => ([], inl e)
    | inr sh =>
        match wrappedSignature p sh with
        | (tw, inl e) => (tw, inl e)
        | (tw, inr w) =>
            (tw ++ trace (tryCatch (remoteAttempt client p w) (onError p)),
             outcome (tryCatch (remoteAttempt client p w) (onError p)))
        end
    end.
Proof.
  destruct (signatureHex (signature p)) as [e | sh] eqn:Hs.
  - unfold verifyHash. rewrite (bind_lift_inl _ _ _ Hs). reflexivity.
  - destruct (wrappedSignature p sh) as [tw [e | w]] eqn:Hw.
    + unfold verifyHash. rewrite (bind_lift_inr _ sh _ Hs), Hw. reflexivity.
    + apply (verifyHash_prepared _ _ _ _ _ Hs Hw).
Qed.

Lemma guarded_outcome (client : Client) (p : VerifyHashParameters) (w : Hex) :
  outcome (tryCatch (remoteAttempt client p w) (onError p)) =
    match outcome (remoteAttempt client p w) with
    | inr b => inr b
    | inl e =>
        if recoveredMatch p then inr true
        else if instanceofCallExecutionError e then inr false
        else inl e
    end.
Proof.
  destruct (remoteAttempt client p w) as [tr [e | b]]; cbn.
  - rewrite onError_eq. reflexivity.
  - reflexivity.
Qed.

(** The payload depends on the client through its chain only. *)
Lemma callParameters_chain (c1 c2 : Client) (p : VerifyHashParameters)
    (w : Hex) :
  chain c1 = chain c2 -> callParameters c1 p w = callParameters c2 p w.
Proof.
  intros Hc. unfold callParameters, chainVerifier. rewrite Hc. reflexivity.
Qed.

(** X1.  An error thrown while normalising the signature (by
    [serializeSignature] or [bytesToHex]) is thrown by [verifyHash] as it
    is, and nothing else is invoked: no wrapper, no call, no recovery. *)
Theorem normalisation_error_is_fatal
    (client : Client) (p : VerifyHashParameters) (e : Error) :
  signatureHex (signature p) = inl e ->
  verifyHash client p = ([], inl e).
Proof. intros Hs. rewrite verifyHash_eq, Hs. reflexivity. Qed.

(** X2.  An error thrown by the ERC-6492 wrapper is thrown by [verifyHash]
    as it is: the wrapper runs outside the [try], so neither the call
    executor nor the recovery is invoked. *)
Theorem wrapping_error_is_fatal
    (client : Client) (p : VerifyHashParameters) (sh : Hex)
    (f : Address) (d : Hex) (e : Error) :
  signatureHex (signature p) = inr sh ->
  deployment p = Some (f, d) ->
  isErc6492Signature sh = false ->
  serializeErc6492Signature f d sh = inl e ->
  verifyHash client p = ([EvWrap f d sh], inl e).
Proof.
  intros Hs Hd Hi Hw.
  rewrite verifyHash_eq, Hs, wrappedSignature_eq, Hd, Hi, Hw. reflexivity.
Qed.

(** X3.  When the payload cannot be encoded, the call executor is not
    invoked, but the error is handled like a remote failure: the recovery
    check runs and decides between [true] and the error ([false] if the
    error is a [CallExecutionError]). *)
Theorem encoding_failure_skips_call
    (client : Client) (p : VerifyHashParameters) (sh w : Hex)
    (tw : list Event) (e : Error) :
  signatureHex (signature p) = inr sh ->
  wrappedSignature p sh = (tw, inr w) ->
  callParameters client p w = inl e ->
  verifyHash client p =
    (tw ++ trace (fallback p),
     if recoveredMatch p then inr true
     else if instanceofCallExecutionError e then inr false
     else inl e) /\
  filter isCall (trace (verifyHash client p)) = [].
Proof.
  intros Hs Hw Hcp.
  pose proof (remoteAttempt_encode_fails _ _ _ _ Hcp) as Hr.
  rewrite (verifyHash_remote_throws _ _ _ _ _ _ _ Hs Hw Hr). cbn [app].
  split; [reflexivity |].
  unfold trace at 1; cbn [fst]. rewrite filter_app.
  destruct (wrappedSignature_trace p sh) as (Hc & _ & _).
  rewrite Hw in Hc. cbn [trace fst] in Hc. rewrite Hc.
  destruct (fallback_trace p) as (Hf & _ & _). rewrite Hf. reflexivity.
Qed.

(** X4.  When the call succeeds and its data decodes, the decoded boolean
    is returned and the recovery is never consulted, also when the boolean
    is [false]. *)
Theorem decoded_result_is_final
    (client : Client) (p : VerifyHashParameters) (sh w : Hex)
    (tw : list Event) (cp : CallParameters) (res : CallReturnType)
    (b : bool) :
  signatureHex (signature p) = inr sh ->
  wrappedSignature p sh = (tw, inr w) ->
  callParameters client p w = inr cp ->
  call client cp = inr res ->
  hexToBool (dataOrZero (returnData res)) = inr b ->
  verifyHash client p = (tw ++ [EvCall cp], inr b) /\
  filter isRecover (trace (verifyHash client p)) = [].
Proof.
  intros Hs Hw Hcp Hcall Hdec.
  assert (Hr : remoteAttempt client p w = ([EvCall cp], inr b)).
  { rewrite (remoteAttempt_eq _ _ _ _ Hcp), Hcall. cbn. rewrite Hdec.
    reflexivity. }
  rewrite (verifyHash_remote_returns _ _ _ _ _ _ _ Hs Hw Hr).
  split; [reflexivity |].
  unfold trace; cbn [fst]. rewrite filter_app.
  destruct (wrappedSignature_trace p sh) as (_ & Hrec & _).
  rewrite Hw in Hrec. cbn [trace fst] in Hrec. rewrite Hrec. reflexivity.
Qed.

(** X5.  In every run the wrapper, the call executor and the recovery are
    each invoked at most once, in this order; the recovery, when invoked,
    gets the caller's hash and signature. *)
Theorem trace_shape (client : Client) (p : VerifyHashParameters) :
  exists ws cs rs,
    trace (verifyHash client p) = ws ++ cs ++ rs /\
    (ws = [] \/ exists f d sh, ws = [EvWrap f d sh]) /\
    (cs = [] \/ exists cp, cs = [EvCall cp]) /\
    (rs = [] \/ rs = [EvRecover (hash p) (signature p)]).
Proof.
  rewrite verifyHash_eq.
  destruct (signatureHex (signature p)) as [e | sh].
  { exists [], [], []. repeat split; left; reflexivity. }
  assert (Hws : trace (wrappedSignature p sh) = [] \/
                exists f d sh', trace (wrappedSignature p sh) = [EvWrap f d sh']).
  { rewrite wrappedSignature_eq.
    destruct (deployment p) as [[f d] |]; [| left; reflexivity].
    destruct (isErc6492Signature sh); [left; reflexivity |].
    right. exists f, d, sh. reflexivity. }
  destruct (wrappedSignature p sh) as [tw [e | w]]; cbn [trace fst] in Hws.
  { exists tw, [], []. rewrite app_nil_r.
    repeat split; try (left; reflexivity). exact Hws. }
  exists tw, (trace (remoteAttempt client p w)),
    (match outcome (remoteAttempt client p w) with
     | inl _ => trace (fallback p)
     | inr _ => []
     end).
  unfold trace at 1; cbn [fst]. rewrite guarded_trace.
  repeat split.
  - exact Hws.
  - rewrite remoteAttempt_trace.
    destruct (callParameters client p w) as [e | cp];
      [left; reflexivity | right; exists cp; reflexivity].
  - destruct (outcome (remoteAttempt client p w)); [| left; reflexivity].
    rewrite fallback_eq.
    destruct (getAddress (address p)); [left | right]; reflexivity.
Qed.

(** X6.  [verifyHash] returns [true] only if the remote call decoded to
    [true], or the remote attempt threw and the recovery check confirmed
    the claimed address. *)
Theorem true_verdict_origin (client : Client) (p : VerifyHashParameters) :
  outcome (verifyHash client p) = inr true ->
  exists sh w,
    signatureHex (signature p) = inr sh /\
    outcome (wrappedSignature p sh) = inr w /\
    (outcome (remoteAttempt client p w) = inr true \/
     (exists e, outcome (remoteAttempt client p w) = inl e) /\
     recoveredMatch p = true).
Proof.
  rewrite verifyHash_eq.
  destruct (signatureHex (signature p)) as [e | sh]; [discriminate |].
  destruct (wrappedSignature p sh) as [tw [e | w]] eqn:Hw; [discriminate |].
  unfold outcome at 1; cbn [snd]. rewrite guarded_outcome.
  intros H. exists sh, w.
  split; [reflexivity | split; [rewrite Hw; reflexivity |]].
  destruct (outcome (remoteAttempt client p w)) as [e | b].
  - right. split; [exists e; reflexivity |].
    destruct (recoveredMatch p); [reflexivity |].
    destruct (instanceofCallExecutionError e); discriminate.
  - left. exact H.
Qed.

(** X7.  [verifyHash] returns [false] only if the remote call decoded to
    [false], or the remote attempt threw a [CallExecutionError] and the
    recovery check did not confirm the claimed address. *)
Theorem false_verdict_origin (client : Client) (p : VerifyHashParameters) :
  outcome (verifyHash client p) = inr false ->
  exists sh w,
    signatureHex (signature p) = inr sh /\
    outcome (wrappedSignature p sh) = inr w /\
    (outcome (remoteAttempt client p w) = inr false \/
     (exists e, outcome (remoteAttempt client p w) = inl e /\
                instanceofCallExecutionError e = true) /\
     recoveredMatch p = false).
Proof.
  rewrite verifyHash_eq.
  destruct (signatureHex (signature p)) as [e | sh]; [discriminate |].
  destruct (wrappedSignature p sh) as [tw [e | w]] eqn:Hw; [discriminate |].
  unfold outcome at 1; cbn [snd]. rewrite guarded_outcome.
  intros H. exists sh, w.
  split; [reflexivity | split; [rewrite Hw; reflexivity |]].
  destruct (outcome (remoteAttempt client p w)) as [e | b].
  - right. destruct (recoveredMatch p); [discriminate |].
    destruct (instanceofCallExecutionError e) eqn:He; [| discriminate].
    split; [exists e; split; [reflexivity | exact He] | reflexivity].
  - left. exact H.
Qed.

(** X8.  Once the signature is normalised and wrapped, an error thrown by
    [verifyHash] is the error the remote attempt threw; it is never a
    [CallExecutionError], and the recovery check did not confirm the
    address. *)
Theorem thrown_error_origin
    (client : Client) (p : VerifyHashParameters) (sh w : Hex)
    (tw : list Event) (e : Error) :
  signatureHex (signature p) = inr sh ->
  wrappedSignature p sh = (tw, inr w) ->
  outcome (verifyHash client p) = inl e ->
  outcome (remoteAttempt client p w) = inl e /\
  instanceofCallExecutionError e = false /\
  recoveredMatch p = false.
Proof.
  intros Hs Hw. rewrite verifyHash_eq, Hs, Hw.
  unfold outcome at 1; cbn [snd]. rewrite guarded_outcome.
  destruct (outcome (remoteAttempt client p w)) as [e' | b]; [| discriminate].
  destruct (recoveredMatch p); [discriminate |].
  destruct (instanceofCallExecutionError e') eqn:He; [discriminate |].
  intros [= <-]. repeat split. exact He.
Qed.

End Decision.

Section Composition.
Context `{U : Utils}.

(** The calls issued, for every input. *)
Lemma calls_of_verifyHash (client : Client) (p : VerifyHashParameters) :
  filter isCall (trace (verifyHash client p)) =
    match signatureHex (signature p) with
    | inl _ => []
    | inr sh =>
        match outcome (wrappedSignature p sh) with
        | inl _ => []
        | inr w =>
            match callParameters client p w with
            | inr cp => [EvCall cp]
            | inl _ => []
            end
        end
    end.
Proof.
  rewrite verifyHash_eq.
  destruct (signatureHex (signature p)) as [e | sh]; [reflexivity |].
  destruct (wrappedSignature_trace p sh) as (Hc & _ & _).
  destruct (wrappedSignature p sh) as [tw [e | w]];
    cbn [trace outcome fst snd] in *.
  - exact Hc.
  - rewrite filter_app, Hc.
    destruct (guarded_events client p w) as (_ & Hg & _).
    cbn [app]. rewrite Hg. apply remoteAttempt_trace.
Qed.

Lemma recoveryCheck_fails (p : VerifyHashParameters) (er : Error) :
  outcome (recoveryCheck p) = inl er -> recoveredMatch p = false.
Proof.
  rewrite recoveryCheck_eq. unfold recoveredMatch.
  destruct (getAddress (address p)) as [e | claimed]; [reflexivity |].
  unfold outcome; cbn [snd].
  destruct (recoverAddress (hash p) (signature p)) as [e | rec];
    [reflexivity |].
  intros ->. reflexivity.
Qed.

(** X9.  When the normalised signature is already wrapped, the deployment
    recipe is ignored altogether: the run is the same as for the request
    without [factory] and [factoryData]. *)
Theorem deployment_ignored_when_wrapped
    (client : Client) (p : VerifyHashParameters) (sh : Hex) :
  signatureHex (signature p) = inr sh ->
  isErc6492Signature sh = true ->
  verifyHash client p = verifyHash client (withoutDeployment p).
Proof.
  intros Hs Hi. rewrite !verifyHash_eq.
  change (signature (withoutDeployment p)) with (signature p).
  rewrite Hs, !wrappedSignature_eq.
  change (deployment (withoutDeployment p)) with (@None (Address * Hex)).
  rewrite Hi. destruct (deployment p) as [[f d] |]; reflexivity.
Qed.

(** X10.  When the claimed address cannot be canonicalised, the recovery is
    never invoked; after a failed remote attempt [verifyHash] returns
    [false] for a [CallExecutionError] and throws the remote error
    otherwise. *)
Theorem invalid_claimed_address_skips_recovery
    (client : Client) (p : VerifyHashParameters) (sh w : Hex)
    (tw tr : list Event) (e ea : Error) :
  signatureHex (signature p) = inr sh ->
  wrappedSignature p sh = (tw, inr w) ->
  remoteAttempt client p w = (tr, inl e) ->
  getAddress (address p) = inl ea ->
  verifyHash client p =
    (tw ++ tr, if instanceofCallExecutionError e then inr false else inl e) /\
  filter isRecover (trace (verifyHash client p)) = [].
Proof.
  intros Hs Hw Hr Ha.
  assert (Hm : recoveredMatch p = false)
    by (unfold recoveredMatch; rewrite Ha; reflexivity).
  assert (Hf : trace (fallback p) = [])
    by (rewrite fallback_eq, Ha; reflexivity).
  rewrite (verifyHash_remote_throws _ _ _ _ _ _ _ Hs Hw Hr), Hm, Hf.
  rewrite app_nil_r. split; [reflexivity |].
  unfold trace; cbn [fst]. rewrite filter_app.
  destruct (wrappedSignature_trace p sh) as (_ & Hrec & _).
  rewrite Hw in Hrec. cbn [trace fst] in Hrec. rewrite Hrec.
  pose proof (remoteAttempt_trace client p w) as Ht.
  rewrite Hr in Ht. cbn [trace fst] in Ht. rewrite Ht.
  destruct (callParameters client p w); reflexivity.
Qed.

(** X11.  Whatever throws inside the recovery check (canonicalising the
    claimed address, the recovery, or the comparison of the addresses) is
    swallowed: the check just does not confirm, and the outcome depends on
    the remote error alone. *)
Theorem fallback_failure_is_swallowed
    (client : Client) (p : VerifyHashParameters) (sh w : Hex)
    (tw tr : list Event) (e er : Error) :
  signatureHex (signature p) = inr sh ->
  wrappedSignature p sh = (tw, inr w) ->
  remoteAttempt client p w = (tr, inl e) ->
  outcome (recoveryCheck p) = inl er ->
  outcome (fallback p) = inr false /\
  outcome (verifyHash client p) =
    if instanceofCallExecutionError e then inr false else inl e.
Proof.
  intros Hs Hw Hr Hrec.
  pose proof (recoveryCheck_fails p er Hrec) as Hm.
  split.
  - rewrite fallback_eq, Hm. reflexivity.
  - rewrite (verifyHash_remote_throws _ _ _ _ _ _ _ Hs Hw Hr), Hm.
    reflexivity.
Qed.

Lemma payload_destination_and_selector_aux (client : Client)
    (p : VerifyHashParameters) (w : Hex) (cp : CallParameters) :
  callParameters client p w = inr cp ->
  to cp = option_map contractAddress (chainVerifier client) /\
  callRest cp = rest p.
Proof.
  unfold callParameters, encodeDeployData.
  destruct (chainVerifier client) as [v |].
  - destruct (encodeFunctionData _ _ _); [discriminate |].
    intros [= <-]. split; reflexivity.
  - destruct (encodeConstructorArgs _ _); [discriminate |].
    intros [= <-]. split; reflexivity.
Qed.

(** X12.  Whenever a payload is built, its destination is the address of
    the chain's configured validator if there is one and absent otherwise
    (no chain, no [contracts], or no [universalSignatureVerifier]), and its
    block selector is the caller's, unchanged. *)
Theorem payload_destination_and_selector
    (client : Client) (p : VerifyHashParameters) (w : Hex)
    (cp : CallParameters) :
  callParameters client p w = inr cp ->
  to cp = option_map contractAddress (chainVerifier client) /\
  callRest cp = rest p /\
  (to cp = None <->
   chain client = None \/
   (exists ch, chain client = Some ch /\ contracts ch = None) \/
   (exists ch cs, chain client = Some ch /\ contracts ch = Some cs /\
                  universalSignatureVerifier cs = None)).
Proof.
  intros Hcp.
  destruct (payload_destination_and_selector_aux _ _ _ _ Hcp) as (Hto & Hrest).
  split; [exact Hto | split; [exact Hrest |]].
  rewrite Hto. unfold chainVerifier.
  destruct (chain client) as [ch |] eqn:Hch.
  2:{ cbn. split; [intros _; left; reflexivity | reflexivity]. }
  destruct (contracts ch) as [cs |] eqn:Hcs.
  2:{ cbn. split; [| reflexivity]. intros _. right. left.
      exists ch. split; [reflexivity | exact Hcs]. }
  destruct (universalSignatureVerifier cs) as [v |] eqn:Hv; cbn.
  - split; [discriminate |].
    intros [H | [(ch' & H & H') | (ch' & cs' & H & H' & H'')]].
    + discriminate.
    + injection H as <-. congruence.
    + injection H as <-. rewrite Hcs in H'. injection H' as <-. congruence.
  - split; [| reflexivity]. intros _. right. right.
    exists ch, cs. repeat split; assumption.
Qed.

(** X13.  On ZKsync every call [verifyHash] issues is addressed to the
    validator the chain definition names; the deploy-and-call payload is
    never used there. *)
Theorem zksync_calls_go_to_verifier
    (exec : CallParameters -> Result CallReturnType)
    (p : VerifyHashParameters) :
  Forall (fun ev =>
            match ev with
            | EvCall cp =>
                to cp = Some (Hex0x "872146211f996755C8729042093ffb8660F8b129")
            | _ => True
            end)
         (trace (verifyHash {| chain := Some zksync; call := exec |} p)).
Proof.
  apply Forall_forall. intros ev Hin.
  destruct ev as [cp | |]; [| exact I | exact I].
  assert (Hf : In (EvCall cp)
                 (filter isCall
                    (trace (verifyHash {| chain := Some zksync; call := exec |} p))))
    by (apply filter_In; split; [exact Hin | reflexivity]).
  rewrite calls_of_verifyHash in Hf.
  destruct (signatureHex (signature p)) as [e | sh]; [contradiction |].
  destruct (outcome (wrappedSignature p sh)) as [e | w]; [contradiction |].
  destruct (callParameters _ p w) as [e | cp'] eqn:Hcp; [contradiction |].
  destruct Hf as [[= <-] | []].
  destruct (payload_destination_and_selector_aux _ _ _ _ Hcp) as (Hto & _).
  exact Hto.
Qed.

End Composition.

Section AbsentData.
Context `{U : Utils}.

(** X14.  A call that returns no data is treated exactly like a call that
    returns ["0x0"]: two clients on the same chain whose executors differ
    only in this give the same run. *)
Theorem absent_data_is_zero
    (c1 c2 : Client) (p : VerifyHashParameters) (sh w : Hex)
    (tw : list Event) (cp : CallParameters) :
  chain c1 = chain c2 ->
  signatureHex (signature p) = inr sh ->
  wrappedSignature p sh = (tw, inr w) ->
  callParameters c1 p w = inr cp ->
  call c1 cp = inr {| returnData := None |} ->
  call c2 cp = inr {| returnData := Some (Hex0x "0") |} ->
  verifyHash c1 p = verifyHash c2 p.
Proof.
  intros Hch Hs Hw Hcp H1 H2.
  assert (Hcp2 : callParameters c2 p w = inr cp)
    by (rewrite <- (callParameters_chain c1 c2 p w Hch); exact Hcp).
  rewrite (verifyHash_prepared c1 _ _ _ _ Hs Hw).
  rewrite (verifyHash_prepared c2 _ _ _ _ Hs Hw).
  rewrite (remoteAttempt_eq c1 _ _ _ Hcp), (remoteAttempt_eq c2 _ _ _ Hcp2).
  rewrite H1, H2. reflexivity.
Qed.

End AbsentData.

(** ** The further properties on concrete requests *)

Section MoreExamples.
Import Scenario.

Lemma normalisation_error_is_fatal_witness :
  signatureHex (U := utils) (signature malformedRequest)
    = inl (EncodingError "malformed hex signature") /\
  verifyHash (U := utils) (onZksync reverting) malformedRequest
    = ([], inl (EncodingError "malformed hex signature")).
Proof.
  split; [reflexivity |].
  apply (normalisation_error_is_fatal (U := utils)
           (onZksync reverting) malformedRequest
           (EncodingError "malformed hex signature")).
  reflexivity.
Defined.

Lemma wrapping_error_is_fatal_witness :
  serializeErc6492Signature (Utils := Faults.utils)
      Faults.badAddress deployData plainSignature
    = inl (InvalidAddressError Faults.badAddress) /\
  verifyHash (U := Faults.utils) (withoutChain reverting)
      Faults.badFactoryRequest
    = ([EvWrap Faults.badAddress deployData plainSignature],
       inl (InvalidAddressError Faults.badAddress)).
Proof.
  split; [reflexivity |].
  apply (wrapping_error_is_fatal (U := Faults.utils)
           (withoutChain reverting) Faults.badFactoryRequest plainSignature
           Faults.badAddress deployData
           (InvalidAddressError Faults.badAddress));
    reflexivity.
Defined.

Lemma encoding_failure_skips_call_witness :
  callParameters (U := Faults.utils) (onZksync reverting)
      Faults.badAddressRequest plainSignature
    = inl (InvalidAddressError Faults.badAddress) /\
  verifyHash (U := Faults.utils) (onZksync reverting) Faults.badAddressRequest
    = ([], inl (InvalidAddressError Faults.badAddress)) /\
  filter isCall
    (trace (verifyHash (U := Faults.utils) (onZksync reverting)
              Faults.badAddressRequest))
    = [].
Proof.
  split; [reflexivity |].
  apply (encoding_failure_skips_call (U := Faults.utils)
           (onZksync reverting) Faults.badAddressRequest
           plainSignature plainSignature []
           (InvalidAddressError Faults.badAddress));
    reflexivity.
Defined.

(** The signer's own signature, but the validator answers zero: the result
    is [false] and recovery is not consulted. *)
Lemma decoded_result_is_final_witness :
  recoveredMatch (H := utils) plainRequest = true /\
  verifyHash (U := utils) (onZksync (answering (Some (Hex0x "00"))))
      plainRequest
    = ([EvCall (callToVerifier plainRequest plainSignature)], inr false) /\
  filter isRecover
    (trace (verifyHash (U := utils) (onZksync (answering (Some (Hex0x "00"))))
              plainRequest))
    = [].
Proof.
  split; [reflexivity |].
  apply (decoded_result_is_final (U := utils)
           (onZksync (answering (Some (Hex0x "00")))) plainRequest
           plainSignature plainSignature []
           (callToVerifier plainRequest plainSignature)
           {| returnData := Some (Hex0x "00") |} false);
    reflexivity.
Defined.

Lemma true_verdict_origin_witness :
  exists sh w,
    signatureHex (U := utils) (signature plainRequest) = inr sh /\
    outcome (wrappedSignature (U := utils) plainRequest sh) = inr w /\
    (outcome (remoteAttempt (U := utils) (onZksync reverting) plainRequest w)
       = inr true \/
     (exists e,
        outcome (remoteAttempt (U := utils) (onZksync reverting) plainRequest w)
          = inl e) /\
     recoveredMatch (H := utils) plainRequest = true).
Proof.
  apply (true_verdict_origin (U := utils) (onZksync reverting) plainRequest).
  reflexivity.
Defined.

Lemma false_verdict_origin_witness :
  exists sh w,
    signatureHex (U := utils) (signature strangerRequest) = inr sh /\
    outcome (wrappedSignature (U := utils) strangerRequest sh) = inr w /\
    (outcome (remoteAttempt (U := utils) (onZksync reverting)
                strangerRequest w)
       = inr false \/
     (exists e,
        outcome (remoteAttempt (U := utils) (onZksync reverting)
                   strangerRequest w)
          = inl e /\
        instanceofCallExecutionError e = true) /\
     recoveredMatch (H := utils) strangerRequest = false).
Proof.
  apply (false_verdict_origin (U := utils) (onZksync reverting)
           strangerRequest).
  reflexivity.
Defined.

Lemma thrown_error_origin_witness :
  outcome (verifyHash (U := utils) (onZksync unreachable) strangerRequest)
    = inl (TransportError "request timed out") /\
  outcome (remoteAttempt (U := utils) (onZksync unreachable) strangerRequest
             plainSignature)
    = inl (TransportError "request timed out") /\
  instanceofCallExecutionError (TransportError "request timed out") = false /\
  recoveredMatch (H := utils) strangerRequest = false.
Proof.
  split; [reflexivity |].
  apply (thrown_error_origin (U := utils) (onZksync unreachable)
           strangerRequest plainSignature plainSignature []
           (TransportError "request timed out"));
    reflexivity.
Defined.

Lemma deployment_ignored_when_wrapped_witness :
  SpecModel.isErc6492Signature wrappedSignatureOfSigner = true /\
  verifyHash (U := utils) (withoutChain reverting) wrappedRequest
    = verifyHash (U := utils) (withoutChain reverting)
        (withoutDeployment wrappedRequest).
Proof.
  split; [reflexivity |].
  apply (deployment_ignored_when_wrapped (U := utils)
           (withoutChain reverting) wrappedRequest wrappedSignatureOfSigner);
    reflexivity.
Defined.

Lemma invalid_claimed_address_skips_recovery_witness :
  getAddress (Utils := utils) Faults.badAddress
    = inl (InvalidAddressError Faults.badAddress) /\
  verifyHash (U := utils) (onZksync reverting) Faults.badAddressRequest
    = ([EvCall (callToVerifier Faults.badAddressRequest plainSignature)],
       inr false) /\
  filter isRecover
    (trace (verifyHash (U := utils) (onZksync reverting)
              Faults.badAddressRequest))
    = [].
Proof.
  split; [reflexivity |].
  apply (invalid_claimed_address_skips_recovery (U := utils)
           (onZksync reverting) Faults.badAddressRequest
           plainSignature plainSignature []
           [EvCall (callToVerifier Faults.badAddressRequest plainSignature)]
           (CallExecutionError "execution reverted")
           (InvalidAddressError Faults.badAddress));
    reflexivity.
Defined.

Lemma fallback_failure_is_swallowed_witness :
  outcome (recoveryCheck (U := utils) Faults.badAddressRequest)
    = inl (InvalidAddressError Faults.badAddress) /\
  outcome (fallback (U := utils) Faults.badAddressRequest) = inr false /\
  outcome (verifyHash (U := utils) (onZksync unreachable)
             Faults.badAddressRequest)
    = inl (TransportError "request timed out").
Proof.
  split; [reflexivity |].
  apply (fallback_failure_is_swallowed (U := utils)
           (onZksync unreachable) Faults.badAddressRequest
           plainSignature plainSignature []
           [EvCall (callToVerifier Faults.badAddressRequest plainSignature)]
           (TransportError "request timed out")
           (InvalidAddressError Faults.badAddress));
    reflexivity.
Defined.

Lemma payload_destination_and_selector_witness :
  callParameters (U := utils) (withoutChain reverting) plainRequest
      plainSignature
    = inr (deployAndCall plainRequest plainSignature) /\
  to (deployAndCall plainRequest plainSignature) = None /\
  callRest (deployAndCall plainRequest plainSignature) = latest /\
  (to (deployAndCall plainRequest plainSignature) = None <->
   chain (withoutChain reverting) = None \/
   (exists ch, chain (withoutChain reverting) = Some ch /\
               contracts ch = None) \/
   (exists ch cs, chain (withoutChain reverting) = Some ch /\
                  contracts ch = Some cs /\
                  universalSignatureVerifier cs = None)).
Proof.
  split; [reflexivity |].
  apply (payload_destination_and_selector (U := utils)
           (withoutChain reverting) plainRequest plainSignature
           (deployAndCall plainRequest plainSignature)).
  reflexivity.
Defined.

Lemma absent_data_is_zero_witness :
  verifyHash (U := utils) (withoutChain (answering None)) plainRequest
    = verifyHash (U := utils) (withoutChain (answering (Some (Hex0x "0"))))
        plainRequest.
Proof.
  apply (absent_data_is_zero (U := utils)
           (withoutChain (answering None))
           (withoutChain (answering (Some (Hex0x "0"))))
           plainRequest plainSignature plainSignature []
           (deployAndCall plainRequest plainSignature));
    reflexivity.
Defined.

End MoreExamples.
